(** * Berita scraper: a shallow embedding of [berita.py]

    The program fetches listing pages of a school news site, extracts article
    summaries with CSS selectors and serves them over two HTTP routes.  The
    embedding keeps the shape of the Python source:

    - Python [str] is [string]; the page number is an unbounded [Z];
    - an exception is a value of [exn], and a call that may raise runs in the
      monad [M], which threads the observable effects (the requests sent and
      the lines printed) and returns either a value or the raised exception;
    - the [while True] loop of [scrape_berita_all] is a fuelled fixpoint that
      answers [None] only when the fuel runs out;
    - the libraries the program calls are taken as follows: the upstream site
      ([requests.get]) and the HTML tokenizer ([HTMLParser(html)]) are
      variables of a section; node text, attributes and the four selectors the
      program uses are functions over a small DOM tree. *)

From Stdlib Require Import String Ascii List ZArith Lia Bool.
From Stdlib Require Import DecimalString.
From Stdlib Require DecimalZ DecimalPos.
Import ListNotations.
Open Scope string_scope.
Open Scope Z_scope.

(** ** Python strings

    A Python [str] is a [string] whose characters are the code points
    0..255; a text with a code point above 255 is outside the model. *)

Module PyStr.

(** [str.isspace] on the code points 0..255: TAB, LF, VT, FF, CR, FS, GS,
    RS, US, the space, NEL (U+0085) and the no-break space (U+00A0). *)
Definition isspace (c : ascii) : bool :=
  let n := nat_of_ascii c in
  ((9 <=? n) && (n <=? 13) || (28 <=? n) && (n <=? 32)
   || (n =? 133) || (n =? 160))%nat.

Fixpoint lstrip (s : string) : string :=
  match s with
  | String c s' => if isspace c then lstrip s' else s
  | EmptyString => EmptyString
  end.

Fixpoint rstrip (s : string) : string :=
  match s with
  | String c s' =>
      match rstrip s' with
      | EmptyString => if isspace c then EmptyString else String c EmptyString
      | r => String c r
      end
  | EmptyString => EmptyString
  end.

(** [s.strip()] *)
Definition strip (s : string) : string := rstrip (lstrip s).

Fixpoint startswith (p s : string) : bool :=
  match p, s with
  | EmptyString, _ => true
  | String a p', String b s' => Ascii.eqb a b && startswith p' s'
  | String _ _, EmptyString => false
  end.

(** The scan of [s.split(sep)] for a non-empty [sep]: left to right, cutting
    at each occurrence of [sep] that does not overlap the previous one.
    [skip] counts the characters of an occurrence still to be dropped and
    [cur] is the segment read so far, reversed. *)
Fixpoint split_scan (sep s : string) (skip : nat) (cur : list ascii)
  : list string :=
  match s with
  | EmptyString => [string_of_list_ascii (rev cur)]
  | String c s' =>
      match skip with
      | S k => split_scan sep s' k cur
      | O =>
          if startswith sep s
          then string_of_list_ascii (rev cur)
                 :: split_scan sep s' (String.length sep - 1) []
          else split_scan sep s' O (c :: cur)
      end
  end.

(** [s.split(sep)] *)
Definition split (sep s : string) : list string := split_scan sep s O [].

(** [l[-1]] on a list of strings; [split] never returns the empty list
    (lemma [split_not_nil]), so the default is never used there. *)
Definition last_item (l : list string) : string := List.last l EmptyString.

(** Truth value of a string: only the empty string is false. *)
Definition truthy (s : string) : bool :=
  match s with EmptyString => false | _ => true end.

(** The most digits an integer may have to be read from a decimal string or
    written as one ([sys.get_int_max_str_digits()], 4300 by default). *)
Definition MAX_STR_DIGITS : nat := 4300.

(** [f"{n}"] for an integer.  Python raises [ValueError] for an integer of
    more than [MAX_STR_DIGITS] digits; the program never formats one: the
    single-page route rejects such a page number (see [validate_page]), and
    the loop of the all-pages route counts up from 1. *)
Definition of_int (n : Z) : string := NilZero.string_of_int (Z.to_int n).

(** [sep in s]: some suffix of [s] starts with [sep]. *)
Fixpoint occurs (sep s : string) : bool :=
  match s with
  | EmptyString => startswith sep EmptyString
  | String _ s' => startswith sep s || occurs sep s'
  end.

(** [int(s)] on a decimal numeral, the inverse of [of_int]. *)
Definition to_int (s : string) : option Z :=
  option_map Z.of_int (NilZero.int_of_string s).

End PyStr.

(** ** The DOM the HTML library hands to the program *)

#[local] Set Warnings "-register-all".

Inductive node : Type :=
| Element (tag : string) (attrs : list (string * option string))
          (children : list node)
| Text (data : string).

Module Dom.

(** The text of [node.text(strip=True)]: the text nodes of the subtree in
    document order, each one stripped, joined without a separator. *)
Fixpoint text_strip (n : node) : string :=
  match n with
  | Text d => PyStr.strip d
  | Element _ _ cs =>
      (fix go (l : list node) : string :=
         match l with
         | [] => EmptyString
         | c :: l' => text_strip c ++ go l'
         end) cs
  end.

(** A dict from attribute name to its value, [None] for an attribute
    written without a value.  A later binding of a name replaces an earlier
    one, as inserting into a dict does. *)
Fixpoint dict_get {V : Type} (k : string) (d : list (string * V))
  : option V :=
  match d with
  | [] => None
  | (k', v) :: d' =>
      match dict_get k d' with
      | Some w => Some w
      | None => if String.eqb k k' then Some v else None
      end
  end.

Definition node_attributes (n : node) : list (string * option string) :=
  match n with
  | Element _ a _ => a
  | Text _ => []
  end.

(** Strict descendants in document (pre-)order. *)
Fixpoint descendants (n : node) : list node :=
  match n with
  | Text _ => []
  | Element _ _ cs => flat_map (fun c => c :: descendants c) cs
  end.

Definition subtree (n : node) : list node := n :: descendants n.

(** The characters that separate class names: TAB, LF, FF, CR and the
    space. *)
Definition html_space (c : ascii) : bool :=
  let n := nat_of_ascii c in
  ((n =? 9) || (n =? 10) || (n =? 12) || (n =? 13) || (n =? 32))%nat.

(** The class list of an element: its [class] attribute cut at the
    separators. *)
Fixpoint words (s : string) (cur : list ascii) : list string :=
  let flush := match cur with
               | [] => []
               | _ => [string_of_list_ascii (rev cur)]
               end in
  match s with
  | EmptyString => flush
  | String c s' =>
      if html_space c then flush ++ words s' [] else words s' (c :: cur)
  end.

(** A letter A..Z as a..z, any other character as it is. *)
Definition lower (c : ascii) : ascii :=
  let n := nat_of_ascii c in
  if ((65 <=? n) && (n <=? 90))%nat then ascii_of_nat (n + 32) else c.

Fixpoint lower_string (s : string) : string :=
  match s with
  | EmptyString => EmptyString
  | String c s' => String (lower c) (lower_string s')
  end.

(** Class names are compared as written in a document with a doctype, and
    without regard to the case of the letters A..Z in a document without one
    ([quirks]). *)
Definition class_eqb (quirks : bool) (a b : string) : bool :=
  if quirks then String.eqb (lower_string a) (lower_string b)
  else String.eqb a b.

Definition has_class (quirks : bool) (cls : string) (n : node) : bool :=
  match dict_get "class" (node_attributes n) with
  | Some (Some v) => existsb (class_eqb quirks cls) (words v [])
  | _ => false
  end.

(** A compound selector: an optional tag name and an optional class. *)
Record compound : Type :=
  { sel_tag : option string; sel_class : option string }.

Definition matches (quirks : bool) (c : compound) (n : node) : bool :=
  match n with
  | Text _ => false
  | Element t _ _ =>
      match sel_tag c with Some t' => String.eqb t t' | None => true end
      && match sel_class c with
         | Some k => has_class quirks k n
         | None => true
         end
  end.

(** The matches of a chain of compounds joined by the descendant
    combinator: the first compound is looked for in the scope node and
    below it, each further one strictly below a match of the previous. *)
Fixpoint css_below (quirks : bool) (sel : list compound) (n : node)
  : list node :=
  match sel with
  | [] => [n]
  | c :: sel' =>
      flat_map (css_below quirks sel')
               (filter (matches quirks c) (descendants n))
  end.

Definition select (quirks : bool) (n : node) (sel : list compound)
  : list node :=
  match sel with
  | [] => []
  | c :: sel' =>
      flat_map (css_below quirks sel') (filter (matches quirks c) (subtree n))
  end.

(** A node as the program holds it: the subtree it stands for, and whether
    its document is without a doctype.  [HTMLParser(html)] is the handle of
    the document root. *)
Record handle : Type :=
  { in_quirks : bool; at_node : node }.

(** [node.css(sel)], and [tree.css(sel)] on the root. *)
Definition css (h : handle) (sel : list compound) : list handle :=
  map (fun n => {| in_quirks := in_quirks h; at_node := n |})
      (select (in_quirks h) (at_node h) sel).

(** [node.css_first(sel)]: the first match, or [None]. *)
Definition css_first (h : handle) (sel : list compound) : option handle :=
  match css h sel with
  | [] => None
  | m :: _ => Some m
  end.

(** [node.attributes] *)
Definition attributes (h : handle) : list (string * option string) :=
  node_attributes (at_node h).

(** [node.text(strip=True)] *)
Definition text (h : handle) : string := text_strip (at_node h).

End Dom.

(** ** Exceptions, effects and the monad of the handlers *)

Inductive exn : Type :=
| RequestException (detail : string)
    (** raised by [requests.get]: connection, timeout and other transport
        errors *)
| HTTPError (status : Z)
    (** raised by [raise_for_status]; a subclass of [RequestException] *)
| KeyError (key : string)
| ResponseValidationError
| OtherError (detail : string).

(** [isinstance(e, requests.exceptions.RequestException)] *)
Definition is_RequestException (e : exn) : bool :=
  match e with
  | RequestException _ | HTTPError _ => true
  | _ => false
  end.

Inductive result (A : Type) : Type :=
| Ok (a : A)
| Raise (e : exn).
Arguments Ok {A} a.
Arguments Raise {A} e.

(** What [print] writes to standard output; the rendering of the exception is
    the library's and is kept symbolic. *)
Inductive log_line : Type :=
| ErrorFetchingURL (url : string) (e : exn).

(** The effects a handler has on the outside: the GET requests it sent and
    the lines it printed, oldest first. *)
Record world : Type :=
  { sent : list string; printed : list log_line }.

Definition M (A : Type) : Type := world -> result A * world.

Definition ret {A} (a : A) : M A := fun w => (Ok a, w).

Definition raise {A} (e : exn) : M A := fun w => (Raise e, w).

Definition bind {A B} (m : M A) (k : A -> M B) : M B :=
  fun w =>
    match m w with
    | (Ok a, w') => k a w'
    | (Raise e, w') => (Raise e, w')
    end.

(** [try: body  except <class> as e: handler e] *)
Definition try_except {A} (body : M A) (caught : exn -> bool)
           (handler : exn -> M A) : M A :=
  fun w =>
    match body w with
    | (Raise e, w') => if caught e then handler e w' else (Raise e, w')
    | r => r
    end.

Definition lift {A} (r : result A) : M A := fun w => (r, w).

Definition print (l : log_line) : M unit :=
  fun w => (Ok tt, {| sent := sent w; printed := printed w ++ [l] |}).

Declare Scope py_scope.
Delimit Scope py_scope with py.
Notation "x <- m ;; k" := (bind m (fun x => k))
  (at level 100, m at next level, right associativity) : py_scope.
Notation "m ;;; k" := (bind m (fun _ => k))
  (at level 100, right associativity) : py_scope.

(** Sequencing of pure computations that may raise. *)
Definition rbind {A B} (r : result A) (k : A -> result B) : result B :=
  match r with
  | Ok a => k a
  | Raise e => Raise e
  end.

(** ** Values of the article dict *)

Inductive pyval : Type :=
| PStr (s : string)
| PNone.

(** A [Dict[str, str]] as the dict literal builds it: the keys in insertion
    order, each with its value. *)
Definition article : Type := list (string * pyval).

(** [d[k]] on the attribute dict: [KeyError] when the key is missing. *)
Definition subscript (d : list (string * option string)) (k : string)
  : result pyval :=
  match Dom.dict_get k d with
  | Some (Some v) => Ok (PStr v)
  | Some None => Ok PNone
  | None => Raise (KeyError k)
  end.

(** The selectors of [parse_articles]. *)
Definition sel_article : list Dom.compound :=      (* "div.post-content" *)
  [ {| Dom.sel_tag := Some "div"; Dom.sel_class := Some "post-content" |} ].
Definition sel_title : list Dom.compound :=        (* "h3 a" *)
  [ {| Dom.sel_tag := Some "h3"; Dom.sel_class := None |};
    {| Dom.sel_tag := Some "a"; Dom.sel_class := None |} ].
Definition sel_date : list Dom.compound :=         (* ".post-meta span" *)
  [ {| Dom.sel_tag := None; Dom.sel_class := Some "post-meta" |};
    {| Dom.sel_tag := Some "span"; Dom.sel_class := None |} ].
Definition sel_description : list Dom.compound :=  (* "p" *)
  [ {| Dom.sel_tag := Some "p"; Dom.sel_class := None |} ].

(** [date_element.text(strip=True).split('</i>')[-1].strip()] *)
Definition date_text (date_element : node) : string :=
  PyStr.strip (PyStr.last_item (PyStr.split "</i>" (Dom.text_strip date_element))).

(** The dict literal of one loop iteration of [parse_articles]; its values are
    evaluated in the order they are written. *)
Definition article_data (article_element : Dom.handle) : result article :=
  let title_element := Dom.css_first article_element sel_title in
  let date_element := Dom.css_first article_element sel_date in
  let description_element := Dom.css_first article_element sel_description in
  let title := match title_element with
               | Some e => PStr (Dom.text e)
               | None => PStr "No Title"
               end in
  rbind (match title_element with
         | Some e => subscript (Dom.attributes e) "href"
         | None => Ok (PStr "#")
         end) (fun link =>
  let date := match date_element with
              | Some e => PStr (date_text (Dom.at_node e))
              | None => PStr "No Date"
              end in
  let description := match description_element with
                     | Some e => PStr (Dom.text e)
                     | None => PStr "No Description"
                     end in
  Ok [ ("title", title); ("link", link); ("date", date);
       ("description", description) ]).

(** The [for] loop: one dict per container, appended in order; the first
    exception ends the loop. *)
Fixpoint collect (article_elements : list Dom.handle)
         (articles_data : list article) : result (list article) :=
  match article_elements with
  | [] => Ok articles_data
  | article_element :: rest =>
      rbind (article_data article_element) (fun d =>
      collect rest (articles_data ++ [d]))
  end.

Definition BASE_URL : string := "https://sman8ptk.sch.id/berita".

(** [f"{BASE_URL}?page={page}"] *)
Definition scrape_url (page : Z) : string :=
  BASE_URL ++ "?page=" ++ PyStr.of_int page.

(** The body of an HTTP response as [fetch_html] reads it. *)
Record response : Type :=
  { status_code : Z; text : string }.

(** [response.ok]: the HTTP library counts the statuses 200..399 as
    success. *)
Definition response_ok (r : response) : bool :=
  (200 <=? status_code r) && (status_code r <? 400).

(** [response.raise_for_status()]: [HTTPError] for every status that is not
    a success.  The comment of [fetch_html] names the 4xx and 5xx ones; the
    library raises as well below 200 and from 600 on, and it does not raise
    for a 3xx status. *)
Definition raise_for_status (r : response) : M unit :=
  if response_ok r
  then ret tt
  else raise (HTTPError (status_code r)).

(** Truth value of an optional string: [None] and [""] are false. *)
Definition truthy (html : option string) : bool :=
  match html with
  | Some s => PyStr.truthy s
  | None => false
  end.

(** The answers of the HTTP layer. *)
Inductive http_response : Type :=
| Http200 (body : list article)
| Http422
| Http500.

(** [response_model=List[Dict[str, str]]]: every value must be a string. *)
Definition is_str (v : pyval) : bool :=
  match v with PStr _ => true | PNone => false end.

Definition valid_body (body : list article) : bool :=
  forallb (fun d => forallb (fun kv => is_str (snd kv)) d) body.

(** What the framework answers for the outcome of a handler. *)
Definition respond (r : result (list article)) : http_response :=
  match r with
  | Ok body => if valid_body body then Http200 body else Http500
  | Raise _ => Http500
  end.

(** The page numbers the single-page route accepts: at least 1 ([ge=1]),
    and of at most [MAX_STR_DIGITS] digits, since the framework does not
    read a longer numeral as an [int]. *)
Definition page_in_range (p : Z) : bool :=
  (1 <=? p) && (String.length (PyStr.of_int p) <=? PyStr.MAX_STR_DIGITS)%nat.

(** [page: int = Query(1, ge=1)]: the default when the parameter is absent,
    rejection (422) of a page number that is not in range. *)
Definition validate_page (q : option Z) : option Z :=
  match q with
  | None => Some 1
  | Some p => if page_in_range p then Some p else None
  end.

(** The world after one request to [url] that printed [lines]. *)
Definition after (w : world) (url : string) (lines : list log_line) : world :=
  {| sent := (sent w ++ [url])%list; printed := (printed w ++ lines)%list |}.

(** Consecutive page numbers, [n] of them from [p]. *)
Fixpoint pages_from (p : Z) (n : nat) : list Z :=
  match n with
  | O => []
  | S n' => p :: pages_from (p + 1) n'
  end.

(** The condition under which the dict literal of line 31 can be evaluated
    for a container: its title anchor, when there is one, has an [href]
    key in its attribute dict. *)
Definition anchor_has_href (article_element : Dom.handle) : bool :=
  match Dom.css_first article_element sel_title with
  | Some a =>
      match Dom.dict_get "href" (Dom.attributes a) with
      | Some _ => true
      | None => false
      end
  | None => true
  end.

(** A record with the four keys of the dict literal, in its order, whose
    title, date and description are strings without surrounding blanks. *)
Definition record_shape (d : article) : Prop :=
  exists t l dt ds,
    d = [ ("title", PStr t); ("link", l); ("date", PStr dt);
          ("description", PStr ds) ]
    /\ PyStr.strip t = t /\ PyStr.strip dt = dt /\ PyStr.strip ds = ds.

(** A record of four strings. *)
Definition four_strings (d : article) : Prop :=
  exists t l dt ds,
    d = [ ("title", PStr t); ("link", PStr l); ("date", PStr dt);
          ("description", PStr ds) ].

(** The answers of the site on which a fetch counts as failed: a transport
    error, or a response whose status is outside 200..399. *)
Definition fetch_fails (o : result response) : Prop :=
  match o with
  | Raise e => is_RequestException e = true
  | Ok r => ~ (200 <= status_code r < 400)
  end.

Section Program.

(** The HTML tokenizer of the library: text to document root. *)
Variable HTMLParser : string -> Dom.handle.

(** The upstream site as [requests.get] sees it.  One URL gets one answer
    for the time a request to the API is served. *)
Variable requests_get : string -> result response.

Definition http_get (url : string) : M response :=
  fun w => (requests_get url,
            {| sent := sent w ++ [url]; printed := printed w |}).

Definition fetch_html (url : string) : M (option string) :=
  try_except
    (response <- http_get url ;;
     raise_for_status response ;;;
     ret (Some (text response)))%py
    is_RequestException
    (fun e => print (ErrorFetchingURL url e) ;;; ret None)%py.

Definition parse_articles (html : option string) : result (list article) :=
  let articles_data := [] in
  match html with
  | Some h =>
      if PyStr.truthy h then
        let tree := HTMLParser h in
        let article_elements := Dom.css tree sel_article in
        collect article_elements articles_data
      else Ok articles_data
  | None => Ok articles_data
  end.

Definition scrape_berita (page : Z) : M (list article) :=
  (html_content <- fetch_html (scrape_url page) ;;
   if truthy html_content
   then (articles <- lift (parse_articles html_content) ;; ret articles)
   else ret [])%py.

(** The [while True] loop of [scrape_berita_all]; [None] only when [fuel]
    iterations did not reach a [break] or an exception. *)
Fixpoint all_loop (fuel : nat) (page_number : Z) (all_articles : list article)
         (w : world) : option (result (list article) * world) :=
  match fuel with
  | O => None
  | S fuel' =>
      match fetch_html (scrape_url page_number) w with
      | (Raise e, w') => Some (Raise e, w')
      | (Ok html_content, w') =>
          if negb (truthy html_content) then Some (Ok all_articles, w')
          else
            match parse_articles html_content with
            | Raise e => Some (Raise e, w')
            | Ok [] => Some (Ok all_articles, w')
            | Ok articles =>
                all_loop fuel' (page_number + 1)
                         (all_articles ++ articles) w'
            end
      end
  end.

Definition scrape_berita_all (fuel : nat) (w : world)
  : option (result (list article) * world) :=
  all_loop fuel 1 [] w.

(** GET /scrape-berita?page=q *)
Definition get_scrape_berita (q : option Z) (w : world)
  : http_response * world :=
  match validate_page q with
  | None => (Http422, w)
  | Some page =>
      let (r, w') := scrape_berita page w in (respond r, w')
  end.

(** GET /scrape-berita/all *)
Definition get_scrape_berita_all (fuel : nat) (w : world)
  : option (http_response * world) :=
  match scrape_berita_all fuel w with
  | None => None
  | Some (r, w') => Some (respond r, w')
  end.

(** What a fetch of [url] returns; it does not depend on the world. *)
Definition fetched (url : string) : result (option string) :=
  fst (fetch_html url {| sent := []; printed := [] |}).

(** Page [i] is fetched and its parse finds the non-empty [a]. *)
Definition page_yields (i : Z) (a : list article) : Prop :=
  exists h, fetched (scrape_url i) = Ok (Some h)
            /\ parse_articles (Some h) = Ok a /\ a <> [].

(** The fetch of page [i] fails, or its parse finds no article. *)
Definition page_ends (i : Z) : Prop :=
  fetched (scrape_url i) = Ok None
  \/ exists h, fetched (scrape_url i) = Ok (Some h)
               /\ parse_articles (Some h) = Ok [].

(** What one fetch and parse of page [i] finds; empty when either fails. *)
Definition page_articles (i : Z) : list article :=
  match fetched (scrape_url i) with
  | Ok v => match parse_articles v with Ok a => a | Raise _ => [] end
  | Raise _ => []
  end.

(** The fetch of page [i] raises [e], or the parse of what it returned
    does. *)
Definition page_raises (i : Z) (e : exn) : Prop :=
  fetched (scrape_url i) = Raise e
  \/ exists h, fetched (scrape_url i) = Ok (Some h)
               /\ parse_articles (Some h) = Raise e.

End Program.

Arguments fetch_html requests_get url w : simpl never.

(** ** A small upstream site, used to run the program *)

Module Sample.

(** One listing entry as the site writes it. *)
Definition entry (row : string * string * string * string) : node :=
  let '(title, href, date, description) := row in
  Element "div" [("class", Some "post-content")]
    [ Element "h3" [] [Element "a" [("href", Some href)] [Text title]];
      Element "div" [("class", Some "post-meta")]
        [ Element "span" []
            [Element "i" [("class", Some "icon")] []; Text date] ];
      Element "p" [] [Text description] ].

(** The record [parse_articles] is expected to build for an entry whose
    texts carry no surrounding blanks. *)
Definition record (row : string * string * string * string) : article :=
  let '(title, href, date, description) := row in
  [ ("title", PStr title); ("link", PStr href); ("date", PStr date);
    ("description", PStr description) ].

(** An entry whose anchor has no [href] attribute. *)
Definition entry_no_href : node :=
  Element "div" [("class", Some "post-content")]
    [ Element "h3" [] [Element "a" [] [Text "Judul"]] ].

(** An entry whose anchor has an [href] attribute without a value. *)
Definition entry_bare_href : node :=
  Element "div" [("class", Some "post-content")]
    [ Element "h3" [] [Element "a" [("href", None)] [Text "Judul"]] ].

(** An entry with none of the three sub-elements. *)
Definition entry_bare : node :=
  Element "div" [("class", Some "post-content")] [].

Definition document (body : list node) : node :=
  Element "html" [] [Element "head" [] []; Element "body" [] body].

Definition rows1 : list (string * string * string * string) :=
  [ ("Upacara Bendera", "/berita/upacara", "12 March 2024", "Senin pagi.");
    ("Lomba Sains", "/berita/lomba", "10 March 2024", "Juara satu.");
    ("Pentas Seni", "/berita/pentas", "8 March 2024", "Di aula.");
    ("Kerja Bakti", "/berita/bakti", "5 March 2024", "Bersama warga.");
    ("Rapat Komite", "/berita/rapat", "1 March 2024", "Hasil rapat.") ].

Definition rows2 : list (string * string * string * string) :=
  [ ("Ujian Sekolah", "/berita/ujian", "20 February 2024", "Jadwal.");
    ("Kunjungan", "/berita/kunjungan", "14 February 2024", "Tamu.");
    ("Libur", "/berita/libur", "2 February 2024", "Pengumuman.") ].

Definition page1 : node := document (map entry rows1).
Definition page2 : node := document (map entry rows2).

Definition articles1 : list article := map record rows1.
Definition articles2 : list article := map record rows2.

(** The text of a document: attributes in single quotes, text as it is. *)
Fixpoint markup (n : node) : string :=
  match n with
  | Text d => d
  | Element t a cs =>
      "<" ++ t
      ++ String.concat ""
           (map (fun kv => match snd kv with
                           | Some v => " " ++ fst kv ++ "='" ++ v ++ "'"
                           | None => " " ++ fst kv
                           end) a)
      ++ ">"
      ++ (fix go (l : list node) : string :=
            match l with
            | [] => EmptyString
            | c :: l' => markup c ++ go l'
            end) cs
      ++ "</" ++ t ++ ">"
  end.

(** The documents the sample sites serve. *)
Definition documents : list node :=
  [ page1; page2; document [entry_no_href]; document [entry_bare_href];
    document [entry_bare] ].

(** The tokenizer on the texts the sample sites serve: the document whose
    text it is given, an empty document for any other text.  The texts have
    no doctype. *)
Definition HTMLParser (html : string) : Dom.handle :=
  {| Dom.in_quirks := true;
     Dom.at_node :=
       match find (fun d => String.eqb html (markup d)) documents with
       | Some d => d
       | None => document []
       end |}.

Definition ok (body : string) : result response :=
  Ok {| status_code := 200; text := body |}.

Definition not_found : result response :=
  Ok {| status_code := 404; text := "Not Found" |}.

(** Two listing pages, then 404. *)
Definition site (url : string) : result response :=
  if String.eqb url (scrape_url 1) then ok (markup page1)
  else if String.eqb url (scrape_url 2) then ok (markup page2)
  else not_found.

(** A site whose first page has an anchor without [href]. *)
Definition site_no_href (url : string) : result response :=
  if String.eqb url (scrape_url 1) then ok (markup (document [entry_no_href]))
  else not_found.

(** One good page, then a page with an anchor without [href]. *)
Definition site_no_href_later (url : string) : result response :=
  if String.eqb url (scrape_url 1) then ok (markup page1)
  else if String.eqb url (scrape_url 2)
       then ok (markup (document [entry_no_href]))
  else not_found.

(** A site that answers every request with an empty body. *)
Definition site_empty (url : string) : result response := ok "".

(** A site that answers 300 (Multiple Choices) with a listing as its
    body. *)
Definition site_300 (url : string) : result response :=
  Ok {| status_code := 300; text := markup page2 |}.

(** A site that cannot be reached. *)
Definition site_down (url : string) : result response :=
  Raise (RequestException "Could not resolve host").

(** A site that answers every page number with the same five articles. *)
Definition site_same (url : string) : result response := ok (markup page1).

(** A client that fails outside the [RequestException] hierarchy. *)
Definition site_broken (url : string) : result response :=
  Raise (OtherError "unexpected keyword argument").

Definition w0 : world := {| sent := []; printed := [] |}.

(** The articles of page [i] of [site]. *)
Definition articles (i : Z) : list article :=
  if i =? 1 then articles1 else if i =? 2 then articles2 else [].

End Sample.

(** ** Facts about the string helpers *)

Lemma split_scan_not_nil (sep s : string) (skip : nat) (cur : list ascii) :
  PyStr.split_scan sep s skip cur <> [].
Proof.
  revert skip cur.
  induction s as [|c s IH]; intros skip cur; simpl; [discriminate|].
  destruct skip as [|k]; [|apply IH].
  destruct (PyStr.startswith sep (String c s)); [discriminate|apply IH].
Qed.

Lemma split_not_nil (sep s : string) : PyStr.split sep s <> [].
Proof. apply split_scan_not_nil. Qed.

Lemma truthy_empty : truthy (Some "") = false.
Proof. reflexivity. Qed.

Lemma truthy_false_inv (v : option string) :
  truthy v = false -> v = None \/ v = Some "".
Proof.
  destruct v as [[|c s]|]; simpl; intros H;
    [right; reflexivity | discriminate | left; reflexivity].
Qed.

(** ** Facts about the record builder *)

Lemma rbind_Ok_inv {A B} (r : result A) (k : A -> result B) (b : B) :
  rbind r k = Ok b -> exists a, r = Ok a /\ k a = Ok b.
Proof. destruct r as [a|e]; simpl; [eauto | discriminate]. Qed.

(** The keys of a record that was built are the four of the dict literal, in
    that order; title, date and description are strings. *)
Lemma article_data_shape (e : Dom.handle) (d : article) :
  article_data e = Ok d ->
  exists t l dt ds,
    d = [ ("title", PStr t); ("link", l); ("date", PStr dt);
          ("description", PStr ds) ].
Proof.
  unfold article_data. intros H.
  apply rbind_Ok_inv in H. destruct H as [l [_ H]].
  injection H as <-.
  destruct (Dom.css_first e sel_title), (Dom.css_first e sel_date),
    (Dom.css_first e sel_description); eauto.
Qed.

(** A container with none of the three sub-elements gets the four
    placeholders. *)
Lemma article_data_placeholders (e : Dom.handle) :
  Dom.css_first e sel_title = None ->
  Dom.css_first e sel_date = None ->
  Dom.css_first e sel_description = None ->
  article_data e = Ok [ ("title", PStr "No Title"); ("link", PStr "#");
                        ("date", PStr "No Date");
                        ("description", PStr "No Description") ].
Proof. unfold article_data. intros -> -> ->. reflexivity. Qed.

Lemma article_data_no_title (e : Dom.handle) :
  Dom.css_first e sel_title = None ->
  exists dt ds,
    article_data e = Ok [ ("title", PStr "No Title"); ("link", PStr "#");
                          ("date", PStr dt); ("description", PStr ds) ].
Proof.
  unfold article_data. intros ->. simpl.
  destruct (Dom.css_first e sel_date), (Dom.css_first e sel_description); eauto.
Qed.

(** A record is built unless the title anchor is there without an [href]
    attribute; then, and only then, the builder raises [KeyError]. *)
Lemma article_data_cases (e : Dom.handle) :
  match Dom.css_first e sel_title with
  | Some a =>
      match Dom.dict_get "href" (Dom.attributes a) with
      | None => article_data e = Raise (KeyError "href")
      | Some _ => exists d, article_data e = Ok d
      end
  | None => exists d, article_data e = Ok d
  end.
Proof.
  unfold article_data, subscript.
  destruct (Dom.css_first e sel_title) as [a|]; [|simpl; eauto].
  destruct (Dom.dict_get "href" (Dom.attributes a)) as [[v|]|]; simpl; eauto.
Qed.

(** Each of date and description is the placeholder when its element is
    missing, in any record that is built. *)
Lemma article_data_no_date_or_description (e : Dom.handle) (d : article) :
  article_data e = Ok d ->
  (Dom.css_first e sel_date = None ->
   Dom.dict_get "date" d = Some (PStr "No Date"))
  /\ (Dom.css_first e sel_description = None ->
      Dom.dict_get "description" d = Some (PStr "No Description")).
Proof.
  unfold article_data. intros H.
  apply rbind_Ok_inv in H. destruct H as [l [_ H]]. injection H as <-.
  split; intros ->; reflexivity.
Qed.

(** The loop keeps what was collected and adds one record per container, in
    the order of the containers. *)
Lemma collect_order (l : list Dom.handle) :
  forall acc res,
    collect l acc = Ok res ->
    exists ds, res = (acc ++ ds)%list
               /\ Forall2 (fun e d => article_data e = Ok d) l ds.
Proof.
  induction l as [|e l IH]; intros acc res H; simpl in H.
  - injection H as <-. exists []. rewrite app_nil_r. split; constructor.
  - apply rbind_Ok_inv in H. destruct H as [d [Hd H]].
    apply IH in H. destruct H as [ds [-> HF]].
    exists (d :: ds). rewrite <- app_assoc. split; [reflexivity|].
    constructor; assumption.
Qed.

Lemma pages_from_length (p : Z) (n : nat) : length (pages_from p n) = n.
Proof. revert p; induction n; intros p; simpl; [|rewrite IHn]; reflexivity. Qed.

Lemma pages_from_In (n : nat) :
  forall p i, In i (pages_from p n) <-> p <= i < p + Z.of_nat n.
Proof.
  induction n as [|n IH]; intros p i; simpl.
  - split; [tauto | lia].
  - rewrite IH. lia.
Qed.

Section Properties.

Variable HTMLParser : string -> Dom.handle.
Variable requests_get : string -> result response.

Local Abbreviation fetch_html := (fetch_html requests_get).
Local Abbreviation parse_articles := (parse_articles HTMLParser).
Local Abbreviation scrape_berita := (scrape_berita HTMLParser requests_get).
Local Abbreviation all_loop := (all_loop HTMLParser requests_get).
Local Abbreviation scrape_berita_all :=
  (scrape_berita_all HTMLParser requests_get).
Local Abbreviation get_scrape_berita :=
  (get_scrape_berita HTMLParser requests_get).
Local Abbreviation get_scrape_berita_all :=
  (get_scrape_berita_all HTMLParser requests_get).
Local Abbreviation fetched := (fetched requests_get).
Local Abbreviation page_yields := (page_yields HTMLParser requests_get).
Local Abbreviation page_ends := (page_ends HTMLParser requests_get).

(** [fetch_html] by cases on what the site answers. *)
Lemma fetch_html_eq (url : string) (w : world) :
  fetch_html url w =
  match requests_get url with
  | Ok r =>
      if response_ok r
      then (Ok (Some (text r)), after w url [])
      else (Ok None,
            after w url [ErrorFetchingURL url (HTTPError (status_code r))])
  | Raise e =>
      if is_RequestException e
      then (Ok None, after w url [ErrorFetchingURL url e])
      else (Raise e, after w url [])
  end.
Proof.
  unfold fetch_html, try_except, bind, http_get, raise_for_status,
    after.
  destruct (requests_get url) as [r|e]; simpl.
  - destruct (response_ok r); simpl; rewrite ?app_nil_r; reflexivity.
  - destruct (is_RequestException e); simpl; rewrite ?app_nil_r; reflexivity.
Qed.

Lemma fetch_html_fetched (url : string) (w : world) :
  fst (fetch_html url w) = fetched url.
Proof.
  unfold fetched. rewrite !fetch_html_eq.
  destruct (requests_get url) as [r|e].
  - destruct (response_ok r); reflexivity.
  - destruct (is_RequestException e); reflexivity.
Qed.

(** Every call of [fetch_html] sends exactly one request, to its URL. *)
Lemma fetch_html_sent (url : string) (w : world) :
  sent (snd (fetch_html url w)) = (sent w ++ [url])%list.
Proof.
  rewrite fetch_html_eq.
  destruct (requests_get url) as [r|e].
  - destruct (response_ok r); reflexivity.
  - destruct (is_RequestException e); reflexivity.
Qed.

Lemma fetch_html_pair (url : string) (w : world) :
  fetch_html url w = (fetched url, snd (fetch_html url w)).
Proof. rewrite <- (fetch_html_fetched url w). apply surjective_pairing. Qed.

Lemma parse_articles_falsy (v : option string) :
  truthy v = false -> parse_articles v = Ok [].
Proof.
  intros H. destruct (truthy_false_inv v H) as [-> | ->]; reflexivity.
Qed.

Lemma parse_articles_nonempty_truthy (v : option string) (a : list article) :
  parse_articles v = Ok a -> a <> [] -> truthy v = true.
Proof.
  intros H Ha. destruct (truthy v) eqn:E; [reflexivity|].
  rewrite (parse_articles_falsy v E) in H. congruence.
Qed.

(** The records of a page follow its containers in document order. *)
Lemma parse_articles_document_order (h : string) (a : list article) :
  parse_articles (Some h) = Ok a ->
  PyStr.truthy h = true ->
  Forall2 (fun e d => article_data e = Ok d)
          (Dom.css (HTMLParser h) sel_article) a.
Proof.
  unfold parse_articles. intros H Ht. rewrite Ht in H.
  apply collect_order in H. destruct H as [ds [-> HF]]. exact HF.
Qed.

(** One iteration on a page that yields articles goes on with the next
    page number and the longer list. *)
Lemma all_loop_continue (fuel : nat) (p : Z) (acc a : list article)
      (w : world) :
  page_yields p a ->
  all_loop (S fuel) p acc w =
  all_loop fuel (p + 1) (acc ++ a) (snd (fetch_html (scrape_url p) w)).
Proof.
  intros [h [Hf [Hp Hne]]].
  cbn [all_loop].
  rewrite (fetch_html_pair (scrape_url p) w), Hf.
  rewrite (parse_articles_nonempty_truthy _ _ Hp Hne). cbn [negb].
  rewrite Hp. destruct a; [congruence | reflexivity].
Qed.

(** One iteration on a page that ends the pagination leaves the loop. *)
Lemma all_loop_break (fuel : nat) (p : Z) (acc : list article) (w : world) :
  page_ends p ->
  all_loop (S fuel) p acc w =
  Some (Ok acc, snd (fetch_html (scrape_url p) w)).
Proof.
  intros [Hf | [h [Hf Hp]]];
    cbn [all_loop];
    rewrite (fetch_html_pair (scrape_url p) w), Hf.
  - reflexivity.
  - destruct (truthy (Some h)); cbn [negb]; [rewrite Hp|]; reflexivity.
Qed.

(** The whole run over [n] pages that yield articles and one that ends. *)
Lemma all_loop_run (n : nat) :
  forall (p : Z) (acc : list article) (w : world) (fuel : nat)
         (arts : Z -> list article),
    (n < fuel)%nat ->
    (forall i, In i (pages_from p n) -> page_yields i (arts i)) ->
    page_ends (p + Z.of_nat n) ->
    exists w',
      all_loop fuel p acc w
      = Some (Ok (acc ++ flat_map arts (pages_from p n))%list, w')
      /\ sent w' = (sent w ++ map scrape_url (pages_from p (S n)))%list.
Proof.
  induction n as [|n IH]; intros p acc w fuel arts Hfuel Hy He.
  - destruct fuel as [|fuel]; [lia|].
    rewrite Z.add_0_r in He.
    rewrite (all_loop_break _ _ _ _ He).
    eexists; split; [simpl; rewrite app_nil_r; reflexivity|].
    apply fetch_html_sent.
  - destruct fuel as [|fuel]; [lia|].
    rewrite (all_loop_continue fuel p acc (arts p) w);
      [|apply Hy; left; reflexivity].
    destruct (IH (p + 1) (acc ++ arts p)%list
                 (snd (fetch_html (scrape_url p) w)) fuel arts)
      as [w' [Hrun Hsent]].
    + lia.
    + intros i Hi. apply Hy. right. exact Hi.
    + replace (p + 1 + Z.of_nat n) with (p + Z.of_nat (S n)) by lia.
      exact He.
    + exists w'. split.
      * rewrite Hrun. cbn [pages_from flat_map].
        rewrite app_assoc. reflexivity.
      * rewrite Hsent, fetch_html_sent, <- app_assoc. reflexivity.
Qed.

(** One iteration of the loop, unfolded. *)
Lemma all_loop_S (fuel : nat) (p : Z) (acc : list article) (w : world) :
  all_loop (S fuel) p acc w =
  match fetch_html (scrape_url p) w with
  | (Raise e, w') => Some (Raise e, w')
  | (Ok html_content, w') =>
      if negb (truthy html_content) then Some (Ok acc, w')
      else
        match parse_articles html_content with
        | Raise e => Some (Raise e, w')
        | Ok articles =>
            match articles with
            | [] => Some (Ok acc, w')
            | _ :: _ => all_loop fuel (p + 1) (acc ++ articles) w'
            end
        end
  end.
Proof. reflexivity. Qed.

(** Fuel only bounds the iterations: a run that returned returns the same
    with more fuel. *)
Lemma all_loop_more_fuel (fuel : nat) :
  forall (p : Z) (acc : list article) (w : world) r,
    all_loop fuel p acc w = Some r -> all_loop (S fuel) p acc w = Some r.
Proof.
  induction fuel as [|fuel IH]; intros p acc w r H; [discriminate H|].
  rewrite all_loop_S in H. rewrite (all_loop_S (S fuel)).
  destruct (fetch_html (scrape_url p) w) as [[v|e] w']; [|exact H].
  destruct (negb (truthy v)); [exact H|].
  destruct (parse_articles v) as [[|a l]|e]; try exact H.
  apply IH. exact H.
Qed.

(** The loop has no bound of its own: on a site where every page from [p] on
    yields articles, no amount of fuel lets it return. *)
Lemma all_loop_no_end (arts : Z -> list article) (fuel : nat) :
  forall (p : Z) (acc : list article) (w : world),
    (forall i, p <= i -> page_yields i (arts i)) ->
    all_loop fuel p acc w = None.
Proof.
  induction fuel as [|fuel IH]; intros p acc w Hy; [reflexivity|].
  rewrite (all_loop_continue fuel p acc (arts p) w); [|apply Hy; lia].
  apply IH. intros i Hi. apply Hy. lia.
Qed.

(** One call of the single-page handler: the parse of what the fetch
    returned, after exactly one request. *)
Lemma scrape_berita_eq (page : Z) (w : world) :
  scrape_berita page w =
  (match fetched (scrape_url page) with
   | Ok v => parse_articles v
   | Raise e => Raise e
   end, snd (fetch_html (scrape_url page) w)).
Proof.
  unfold scrape_berita, bind.
  rewrite (fetch_html_pair (scrape_url page) w).
  destruct (fetched (scrape_url page)) as [v|e]; [|reflexivity].
  cbn [snd]. destruct (truthy v) eqn:E.
  - unfold lift, ret. destruct (parse_articles v); reflexivity.
  - rewrite (parse_articles_falsy v E). reflexivity.
Qed.

(** A failed fetch and a page without containers both give the empty list
    from the single-page handler, and the framework answers 200 with it. *)
Lemma get_scrape_berita_empty (page : Z) (w : world) :
  page_in_range page = true ->
  page_ends page ->
  get_scrape_berita (Some page) w
  = (Http200 [], snd (fetch_html (scrape_url page) w)).
Proof.
  intros Hp He. unfold get_scrape_berita, validate_page.
  rewrite Hp.
  rewrite scrape_berita_eq.
  destruct He as [Hf | [h [Hf Hparse]]]; rewrite Hf; [|rewrite Hparse];
    reflexivity.
Qed.

(** When the fetch of page 1 fails, the all-pages route answers 200 with the
    empty array after that one request. *)
Lemma get_scrape_berita_all_first_fetch_fails (fuel : nat) (w : world) :
  fetched (scrape_url 1) = Ok None ->
  get_scrape_berita_all (S fuel) w
  = Some (Http200 [], snd (fetch_html (scrape_url 1) w)).
Proof.
  intros Hf. unfold get_scrape_berita_all, scrape_berita_all.
  rewrite all_loop_break; [reflexivity | left; exact Hf].
Qed.

(** C3. A request to /scrape-berita with a page parameter below 1 is rejected
    by the validation of the parameter (422), and nothing is fetched: the
    requests sent and the lines printed are those from before the request. *)
Theorem get_scrape_berita_rejects_below_1 (p : Z) (w : world) :
  p < 1 ->
  get_scrape_berita (Some p) w = (Http422, w)
  /\ sent (snd (get_scrape_berita (Some p) w)) = sent w.
Proof.
  intros Hp. unfold get_scrape_berita, validate_page, page_in_range.
  destruct (Z.leb_spec 1 p); [lia|]. split; reflexivity.
Qed.

(** C4, amended. For every URL, when [requests.get] raises a
    [RequestException] (a transport error) or the response has a status
    outside 200..399, [fetch_html] does not raise: it returns [None] after
    one request and one printed line naming the URL and the exception. *)
Theorem fetch_html_failure_is_absent (url : string) (w : world) :
  fetch_fails (requests_get url) ->
  exists e, is_RequestException e = true
            /\ fetch_html url w
               = (Ok None, after w url [ErrorFetchingURL url e]).
Proof.
  intros H. rewrite fetch_html_eq.
  destruct (requests_get url) as [r|e]; simpl in H.
  - exists (HTTPError (status_code r)). split; [reflexivity|].
    unfold response_ok.
    destruct (Z.leb_spec 200 (status_code r));
      destruct (Z.ltb_spec (status_code r) 400); try reflexivity.
    lia.
  - exists e. rewrite H. split; reflexivity.
Qed.

(** C5. When pages 1 to N each yield a non-empty list of articles and page
    N+1 ends the pagination (its fetch fails or its parse finds nothing), the
    all-pages handler returns, with any fuel above N, the lists of pages 1 to
    N appended in ascending page order; and the list of each page follows the
    containers of that page in document order. *)
Theorem scrape_berita_all_concatenates (N : nat) (arts : Z -> list article)
        (w : world) (fuel : nat) :
  (forall i, 1 <= i <= Z.of_nat N -> page_yields i (arts i)) ->
  page_ends (Z.of_nat N + 1) ->
  (N < fuel)%nat ->
  (exists w', scrape_berita_all fuel w
              = Some (Ok (flat_map arts (pages_from 1 N)), w'))
  /\ (forall i, 1 <= i <= Z.of_nat N ->
       exists h, fetched (scrape_url i) = Ok (Some h)
                 /\ Forall2 (fun e d => article_data e = Ok d)
                            (Dom.css (HTMLParser h) sel_article) (arts i)).
Proof.
  intros Hy He Hfuel. split.
  - destruct (all_loop_run N 1 [] w fuel arts Hfuel) as [w' [Hrun _]].
    + intros i Hi. apply Hy. apply pages_from_In in Hi. lia.
    + replace (1 + Z.of_nat N) with (Z.of_nat N + 1) by lia. exact He.
    + exists w'. exact Hrun.
  - intros i Hi. destruct (Hy i Hi) as [h [Hf [Hp Hne]]].
    exists h. split; [exact Hf|].
    apply parse_articles_document_order; [exact Hp|].
    exact (parse_articles_nonempty_truthy _ _ Hp Hne).
Qed.

(** C6. When pages 1 to N each yield a non-empty list of articles and page
    N+1 ends the pagination, the all-pages handler returns with any fuel above
    N, and the requests it sent are those for pages 1, 2, ..., N+1 in that
    order: N+1 fetches, the first for page 1, each next page number one
    higher. *)
Theorem scrape_berita_all_fetch_count (N : nat) (arts : Z -> list article)
        (w : world) (fuel : nat) :
  (forall i, 1 <= i <= Z.of_nat N -> page_yields i (arts i)) ->
  page_ends (Z.of_nat N + 1) ->
  (N < fuel)%nat ->
  exists r w',
    scrape_berita_all fuel w = Some (Ok r, w')
    /\ sent w' = (sent w ++ map scrape_url (pages_from 1 (S N)))%list
    /\ length (sent w') = (length (sent w) + (N + 1))%nat.
Proof.
  intros Hy He Hfuel.
  destruct (all_loop_run N 1 [] w fuel arts Hfuel) as [w' [Hrun Hsent]].
  - intros i Hi. apply Hy. apply pages_from_In in Hi. lia.
  - replace (1 + Z.of_nat N) with (Z.of_nat N + 1) by lia. exact He.
  - eexists; exists w'. split; [exact Hrun|]. split; [exact Hsent|].
    rewrite Hsent, length_app, length_map, pages_from_length. lia.
Qed.

(** C8. The parser returns the empty list for an absent HTML input, and for
    any HTML text in which no element matches the container selector. *)
Theorem parse_articles_absent_or_no_container :
  parse_articles None = Ok []
  /\ forall h, Dom.css (HTMLParser h) sel_article = [] ->
               parse_articles (Some h) = Ok [].
Proof.
  split; [reflexivity|].
  intros h H. unfold parse_articles.
  destruct (PyStr.truthy h); [rewrite H|]; reflexivity.
Qed.

(** C10. An empty body is treated as a failed fetch: whether the fetch of a
    page returned [None] or the empty string, the parser returns the empty
    list for that value, the single-page handler returns the empty list, and
    an iteration of the all-pages loop on that page leaves the loop with the
    articles collected so far. *)
Theorem empty_body_is_fetch_failure (page : Z) (v : option string)
        (w : world) :
  fetched (scrape_url page) = Ok v ->
  v = None \/ v = Some "" ->
  parse_articles v = Ok []
  /\ scrape_berita page w = (Ok [], snd (fetch_html (scrape_url page) w))
  /\ forall fuel acc,
       all_loop (S fuel) page acc w
       = Some (Ok acc, snd (fetch_html (scrape_url page) w)).
Proof.
  intros Hf Hv.
  assert (Ht : truthy v = false) by (destruct Hv as [-> | ->]; reflexivity).
  split; [apply parse_articles_falsy; exact Ht|]. split.
  - rewrite scrape_berita_eq, Hf. rewrite (parse_articles_falsy v Ht).
    reflexivity.
  - intros fuel acc. cbn [all_loop].
    rewrite (fetch_html_pair (scrape_url page) w), Hf, Ht. reflexivity.
Qed.

End Properties.

(** ** The program on concrete inputs *)

(** The split does cut when the closing tag reaches the text itself, and the
    piece after the last cut is trimmed. *)
Example date_text_literal_tag :
  date_text (Text " <i class='icon'></i> 12 March 2024 ") = "12 March 2024".
Proof. reflexivity. Qed.

(** A container with none of the three sub-elements gives the four
    placeholders. *)
Example parse_articles_bare_entry :
  parse_articles Sample.HTMLParser
    (Some "<html><head></head><body><div class='post-content'></div></body></html>")
  = Ok [[ ("title", PStr "No Title"); ("link", PStr "#");
          ("date", PStr "No Date");
          ("description", PStr "No Description") ]].
Proof. vm_compute. reflexivity. Qed.

(** C1, evaluated where the code departs from it.  A container whose title
    anchor has no href attribute makes the parser raise KeyError instead of
    building a record; an anchor whose href has no value gives a record whose
    link is None, not a string. *)
Theorem parse_articles_anchor_without_href :
  parse_articles Sample.HTMLParser
    (Some "<html><head></head><body><div class='post-content'><h3><a>Judul</a></h3></div></body></html>")
  = Raise (KeyError "href")
  /\ parse_articles Sample.HTMLParser
       (Some "<html><head></head><body><div class='post-content'><h3><a href>Judul</a></h3></div></body></html>")
     = Ok [[ ("title", PStr "Judul"); ("link", PNone);
             ("date", PStr "No Date");
             ("description", PStr "No Description") ]].
Proof. split; vm_compute; reflexivity. Qed.

(** C2, evaluated where the code departs from it.  When page 1 of the site
    holds a container whose title anchor has no href attribute, the
    single-page route answers 500 after its one request. *)
Theorem get_scrape_berita_anchor_without_href :
  Sample.site_no_href (scrape_url 1)
  = Sample.ok "<html><head></head><body><div class='post-content'><h3><a>Judul</a></h3></div></body></html>"
  /\ scrape_berita Sample.HTMLParser Sample.site_no_href 1 Sample.w0
     = (Raise (KeyError "href"),
        {| sent := [scrape_url 1]; printed := [] |})
  /\ get_scrape_berita Sample.HTMLParser Sample.site_no_href (Some 1) Sample.w0
     = (Http500, {| sent := [scrape_url 1]; printed := [] |}).
Proof. repeat split; vm_compute; reflexivity. Qed.

(** C9, evaluated where the code departs from it.  When page 1 yields five
    articles and page 2 holds a container whose title anchor has no href
    attribute, the all-pages route answers 500 after two requests, whatever
    fuel is left: the five articles are not returned. *)
Theorem get_scrape_berita_all_anchor_without_href (fuel : nat) :
  scrape_berita_all Sample.HTMLParser Sample.site_no_href_later
    (S (S fuel)) Sample.w0
  = Some (Raise (KeyError "href"),
          {| sent := [scrape_url 1; scrape_url 2]; printed := [] |})
  /\ get_scrape_berita_all Sample.HTMLParser Sample.site_no_href_later
       (S (S fuel)) Sample.w0
     = Some (Http500,
             {| sent := [scrape_url 1; scrape_url 2]; printed := [] |}).
Proof. split; vm_compute; reflexivity. Qed.

(** C4 as stated fails at status 300: the status is not a 2xx one, no
    exception is raised, and the fetcher returns the body, not None. *)
Lemma fetch_html_status_300_is_content :
  let r := {| status_code := 300; text := Sample.markup Sample.page2 |} in
  Sample.site_300 (scrape_url 1) = Ok r
  /\ ~ (200 <= status_code r < 300)
  /\ fst (fetch_html Sample.site_300 (scrape_url 1) Sample.w0)
     = Ok (Some (text r))
  /\ fst (fetch_html Sample.site_300 (scrape_url 1) Sample.w0) <> Ok None.
Proof.
  intros r. split; [reflexivity|]. split; [simpl; lia|].
  split; [vm_compute; reflexivity | vm_compute; discriminate].
Qed.

Lemma get_scrape_berita_rejects_below_1_witness :
  0 < 1
  /\ get_scrape_berita Sample.HTMLParser Sample.site (Some 0) Sample.w0
     = (Http422, Sample.w0).
Proof.
  split; [lia|].
  apply (get_scrape_berita_rejects_below_1
           Sample.HTMLParser Sample.site 0 Sample.w0).
  lia.
Defined.

Lemma fetch_html_failure_is_absent_witness :
  exists e,
    is_RequestException e = true
    /\ fetch_html Sample.site (scrape_url 3) Sample.w0
       = (Ok None,
          after Sample.w0 (scrape_url 3) [ErrorFetchingURL (scrape_url 3) e]).
Proof.
  apply (fetch_html_failure_is_absent Sample.site (scrape_url 3) Sample.w0).
  vm_compute. intros [_ H]. discriminate H.
Defined.

(** Pages 1 and 2 of the sample site yield their five and three articles,
    and page 3 ends the pagination. *)
Lemma sample_site_pages (i : Z) :
  1 <= i <= Z.of_nat 2 ->
  page_yields Sample.HTMLParser Sample.site i (Sample.articles i).
Proof.
  intros Hi. assert (H : i = 1 \/ i = 2) by lia.
  destruct H as [-> | ->].
  - exists (Sample.markup Sample.page1).
    split; [vm_compute; reflexivity|].
    split; [vm_compute; reflexivity | discriminate].
  - exists (Sample.markup Sample.page2).
    split; [vm_compute; reflexivity|].
    split; [vm_compute; reflexivity | discriminate].
Defined.

Lemma sample_site_ends :
  page_ends Sample.HTMLParser Sample.site (Z.of_nat 2 + 1).
Proof. left. vm_compute. reflexivity. Defined.

Lemma scrape_berita_all_concatenates_witness :
  length Sample.articles1 = 5%nat
  /\ length Sample.articles2 = 3%nat
  /\ exists w',
       scrape_berita_all Sample.HTMLParser Sample.site 3 Sample.w0
       = Some (Ok (Sample.articles1 ++ Sample.articles2)%list, w').
Proof.
  split; [reflexivity|]. split; [reflexivity|].
  destruct (scrape_berita_all_concatenates
              Sample.HTMLParser Sample.site 2 Sample.articles Sample.w0 3
              sample_site_pages sample_site_ends) as [[w' H] _]; [lia|].
  exists w'. rewrite H. reflexivity.
Defined.

Lemma scrape_berita_all_fetch_count_witness :
  exists r w',
    scrape_berita_all Sample.HTMLParser Sample.site 3 Sample.w0
    = Some (Ok r, w')
    /\ sent w' = [scrape_url 1; scrape_url 2; scrape_url 3]
    /\ length (sent w') = 3%nat.
Proof.
  destruct (scrape_berita_all_fetch_count
              Sample.HTMLParser Sample.site 2 Sample.articles Sample.w0 3
              sample_site_pages sample_site_ends)
    as [r [w' [H1 [H2 H3]]]]; [lia|].
  exists r, w'. split; [exact H1|]. split; [exact H2 | exact H3].
Defined.

Lemma parse_articles_absent_or_no_container_witness :
  Dom.css (Sample.HTMLParser "<html><head></head><body></body></html>")
          sel_article = []
  /\ parse_articles Sample.HTMLParser
       (Some "<html><head></head><body></body></html>") = Ok [].
Proof.
  split; [reflexivity|].
  apply (proj2 (parse_articles_absent_or_no_container Sample.HTMLParser)).
  reflexivity.
Defined.

Lemma empty_body_is_fetch_failure_witness :
  fetched Sample.site_empty (scrape_url 1) = Ok (Some "")
  /\ scrape_berita Sample.HTMLParser Sample.site_empty 1 Sample.w0
     = (Ok [], {| sent := [scrape_url 1]; printed := [] |})
  /\ all_loop Sample.HTMLParser Sample.site_empty 1 1 [] Sample.w0
     = Some (Ok [], {| sent := [scrape_url 1]; printed := [] |}).
Proof.
  split; [reflexivity|].
  destruct (empty_body_is_fetch_failure
              Sample.HTMLParser Sample.site_empty 1 (Some "") Sample.w0)
    as [_ [H1 H2]]; [reflexivity | right; reflexivity |].
  split; [exact H1 | exact (H2 O [])].
Defined.

(** ** More about the strings: stripping, splitting, formatting *)

Lemma append_nil_r (s : string) : s ++ "" = s.
Proof. induction s as [|c s IH]; simpl; [|rewrite IH]; reflexivity. Qed.

Lemma append_assoc (a b c : string) : (a ++ b) ++ c = a ++ (b ++ c).
Proof. induction a as [|x a IH]; simpl; [|rewrite IH]; reflexivity. Qed.

Lemma append_inv_head (a b c : string) : a ++ b = a ++ c -> b = c.
Proof.
  induction a as [|x a IH]; simpl; intros H; [exact H|].
  injection H as H. exact (IH H).
Qed.

Lemma string_of_list_ascii_snoc (l : list ascii) (c : ascii) :
  string_of_list_ascii (l ++ [c]) = string_of_list_ascii l ++ String c "".
Proof. induction l as [|x l IH]; simpl; [|rewrite IH]; reflexivity. Qed.

Lemma lstrip_head (s : string) :
  match PyStr.lstrip s with
  | EmptyString => True
  | String c _ => PyStr.isspace c = false
  end.
Proof.
  induction s as [|c s IH]; simpl; [exact I|].
  destruct (PyStr.isspace c) eqn:E; [exact IH | exact E].
Qed.

Lemma rstrip_idempotent (s : string) :
  PyStr.rstrip (PyStr.rstrip s) = PyStr.rstrip s.
Proof.
  induction s as [|c s IH]; [reflexivity|].
  cbn [PyStr.rstrip]. destruct (PyStr.rstrip s) as [|a r] eqn:E.
  - destruct (PyStr.isspace c) eqn:Ec; [reflexivity|].
    cbn [PyStr.rstrip]. rewrite Ec. reflexivity.
  - change (PyStr.rstrip (String c (String a r)))
      with (match PyStr.rstrip (String a r) with
            | EmptyString =>
                if PyStr.isspace c then EmptyString else String c EmptyString
            | String x y => String c (String x y)
            end).
    rewrite IH. reflexivity.
Qed.

(** A string that does not begin with a blank keeps its first character
    under [rstrip]. *)
Lemma rstrip_keeps_head (c : ascii) (s : string) :
  PyStr.isspace c = false ->
  exists r, PyStr.rstrip (String c s) = String c r.
Proof.
  intros Hc. cbn [PyStr.rstrip].
  destruct (PyStr.rstrip s) as [|a r]; [rewrite Hc|]; eauto.
Qed.

Lemma lstrip_strip (s : string) : PyStr.lstrip (PyStr.strip s) = PyStr.strip s.
Proof.
  unfold PyStr.strip. pose proof (lstrip_head s) as H.
  destruct (PyStr.lstrip s) as [|c t]; [reflexivity|].
  destruct (rstrip_keeps_head c t H) as [r ->].
  simpl. rewrite H. reflexivity.
Qed.

Lemma strip_idempotent (s : string) :
  PyStr.strip (PyStr.strip s) = PyStr.strip s.
Proof.
  unfold PyStr.strip at 1. rewrite lstrip_strip.
  unfold PyStr.strip. apply rstrip_idempotent.
Qed.

(** [rstrip] cuts a string at its end only. *)
Lemma rstrip_prefix (s : string) : exists u, s = PyStr.rstrip s ++ u.
Proof.
  induction s as [|c s [u IH]]; [exists ""; reflexivity|].
  cbn [PyStr.rstrip]. destruct (PyStr.rstrip s) as [|a r].
  - destruct (PyStr.isspace c).
    + exists (String c s). reflexivity.
    + exists s. reflexivity.
  - exists u. simpl. simpl in IH. rewrite <- IH. reflexivity.
Qed.

Lemma startswith_app (p a u : string) :
  PyStr.startswith p a = true -> PyStr.startswith p (a ++ u) = true.
Proof.
  revert a. induction p as [|x p IH]; intros a H; [reflexivity|].
  destruct a as [|y a]; simpl in *; [discriminate|].
  apply andb_true_iff in H. destruct H as [H1 H2].
  rewrite H1. simpl. apply IH. exact H2.
Qed.

Lemma occurs_app_r (p a u : string) :
  PyStr.occurs p a = true -> PyStr.occurs p (a ++ u) = true.
Proof.
  induction a as [|y a IH]; simpl; intros H.
  - apply (startswith_app p "" u) in H. simpl in H.
    destruct u as [|z u]; simpl; [exact H|]. rewrite H. reflexivity.
  - apply orb_true_iff in H. apply orb_true_iff. destruct H as [H | H].
    + left. exact (startswith_app p (String y a) u H).
    + right. exact (IH H).
Qed.

Lemma occurs_lstrip (p s : string) :
  PyStr.occurs p (PyStr.lstrip s) = true -> PyStr.occurs p s = true.
Proof.
  induction s as [|c s IH]; simpl; [trivial|].
  destruct (PyStr.isspace c); [|trivial].
  intros H. rewrite (IH H). apply orb_true_r.
Qed.

(** Stripping cannot bring a separator into a string. *)
Lemma occurs_strip (p s : string) :
  PyStr.occurs p s = false -> PyStr.occurs p (PyStr.strip s) = false.
Proof.
  intros H. destruct (PyStr.occurs p (PyStr.strip s)) eqn:E; [|reflexivity].
  unfold PyStr.strip in E.
  destruct (rstrip_prefix (PyStr.lstrip s)) as [u Hu].
  apply (occurs_app_r _ _ u) in E. rewrite <- Hu in E.
  apply occurs_lstrip in E. congruence.
Qed.

Lemma append_eq_nil (a b : string) : a ++ b = "" -> b = "".
Proof. destruct a; simpl; [trivial | discriminate]. Qed.

Lemma append_snoc_inv (c : ascii) (a : string) :
  forall x b, x ++ String c "" = a ++ b -> b <> "" ->
              exists b', b = b' ++ String c "" /\ x = a ++ b'.
Proof.
  induction a as [|y a IH]; intros x b H Hb; simpl in H.
  - exists x. split; [symmetry; exact H | reflexivity].
  - destruct x as [|z x]; simpl in H.
    + injection H as _ H. symmetry in H. apply append_eq_nil in H.
      contradiction.
    + injection H as -> H. destruct (IH x b H Hb) as [b' [-> ->]].
      exists b'. split; reflexivity.
Qed.

Lemma last_item_cons (x : string) (l : list string) :
  l <> [] -> PyStr.last_item (x :: l) = PyStr.last_item l.
Proof. destruct l; [congruence | reflexivity]. Qed.

Lemma occurs_false_intro (sep t : string) :
  sep <> "" ->
  (forall a b, t = a ++ b -> b <> "" -> PyStr.startswith sep (b ++ "") = false) ->
  PyStr.occurs sep t = false.
Proof.
  intros Hsep. induction t as [|c t IH]; intros H; simpl.
  - destruct sep; [congruence | reflexivity].
  - apply orb_false_iff. split.
    + rewrite <- (append_nil_r (String c t)).
      apply (H "" (String c t)); [reflexivity | discriminate].
    + apply IH. intros a b -> Hb. apply (H (String c a) b); [reflexivity|].
      exact Hb.
Qed.

(** The last piece of a split holds no occurrence of the separator.  The
    scan keeps this: no occurrence starts in the piece being read, followed
    by what is still to be read. *)
Lemma split_scan_last_clean (sep : string) :
  sep <> "" ->
  forall (s : string) (skip : nat) (cur : list ascii),
    (skip = O ->
     forall a b, string_of_list_ascii (rev cur) = a ++ b -> b <> "" ->
                 PyStr.startswith sep (b ++ s) = false) ->
    (skip <> O -> cur = []) ->
    PyStr.occurs sep (PyStr.last_item (PyStr.split_scan sep s skip cur))
    = false.
Proof.
  intros Hsep.
  assert (Hnil : forall (k : nat) (s' : string),
             k = O -> forall a b,
               string_of_list_ascii (rev []) = a ++ b -> b <> "" ->
               PyStr.startswith sep (b ++ s') = false).
  { intros k s' _ a b H Hb. simpl in H. symmetry in H.
    apply append_eq_nil in H. contradiction. }
  induction s as [|c s IH]; intros skip cur H0 H1.
  - simpl. destruct skip as [|k].
    + apply occurs_false_intro; [exact Hsep | exact (H0 eq_refl)].
    + rewrite (H1 (Nat.neq_succ_0 k)). simpl.
      destruct sep; [congruence | reflexivity].
  - cbn [PyStr.split_scan]. destruct skip as [|k].
    + destruct (PyStr.startswith sep (String c s)) eqn:E.
      * rewrite last_item_cons by apply split_scan_not_nil.
        apply IH; [apply Hnil | reflexivity].
      * apply IH; [|congruence].
        intros _ a b Hab Hb. simpl in Hab.
        rewrite string_of_list_ascii_snoc in Hab.
        destruct (append_snoc_inv c a _ b Hab Hb) as [b' [-> Hcur]].
        rewrite append_assoc. simpl.
        destruct b' as [|z b']; [exact E|].
        apply (H0 eq_refl a (String z b') Hcur). discriminate.
    + rewrite (H1 (Nat.neq_succ_0 k)). apply IH; [apply Hnil | reflexivity].
Qed.

(** A string without the separator is split into itself alone. *)
Lemma split_scan_no_sep (sep : string) :
  forall (s : string) (cur : list ascii),
    PyStr.occurs sep s = false ->
    PyStr.split_scan sep s O cur = [string_of_list_ascii (rev cur) ++ s].
Proof.
  induction s as [|c s IH]; intros cur H; simpl.
  - rewrite append_nil_r. reflexivity.
  - simpl in H. apply orb_false_iff in H. destruct H as [H1 H2].
    simpl in H1. rewrite H1. rewrite (IH (c :: cur) H2). simpl.
    rewrite string_of_list_ascii_snoc, append_assoc. reflexivity.
Qed.

Lemma strip_fixed_inv (s : string) :
  PyStr.strip s = s -> PyStr.lstrip s = s /\ PyStr.rstrip s = s.
Proof.
  intros H. split.
  - rewrite <- H at 1. rewrite lstrip_strip. exact H.
  - rewrite <- H at 1. unfold PyStr.strip. rewrite rstrip_idempotent.
    exact H.
Qed.

Lemma rstrip_app (a b : string) :
  PyStr.rstrip b <> "" -> PyStr.rstrip (a ++ b) = a ++ PyStr.rstrip b.
Proof.
  intros Hb. induction a as [|c a IH]; [reflexivity|].
  simpl. rewrite IH.
  destruct (a ++ PyStr.rstrip b) as [|x y] eqn:E; [|reflexivity].
  apply append_eq_nil in E. contradiction.
Qed.

(** Two strings without surrounding blanks, put together, have none. *)
Lemma strip_app_fixed (a b : string) :
  PyStr.strip a = a -> PyStr.strip b = b -> PyStr.strip (a ++ b) = a ++ b.
Proof.
  intros Ha Hb.
  destruct (strip_fixed_inv a Ha) as [La Ra].
  destruct (strip_fixed_inv b Hb) as [Lb Rb].
  destruct b as [|y b]; [rewrite append_nil_r; exact Ha|].
  destruct a as [|x a]; [exact Hb|].
  unfold PyStr.strip.
  assert (Hx : PyStr.isspace x = false).
  { pose proof (lstrip_head (String x a)) as H. rewrite La in H. exact H. }
  simpl PyStr.lstrip. rewrite Hx.
  change (String x (a ++ String y b)) with (String x a ++ String y b).
  rewrite rstrip_app; rewrite Rb; [reflexivity | discriminate].
Qed.

Lemma node_Forall_ind (P : node -> Prop) :
  (forall d, P (Text d)) ->
  (forall t a cs, Forall P cs -> P (Element t a cs)) ->
  forall n, P n.
Proof.
  intros HT HE. fix IH 1. intros [t a cs | d]; [|apply HT].
  apply HE. induction cs as [|c cs IHcs]; constructor;
    [apply IH | exact IHcs].
Qed.

(** The stripped text of a node has no surrounding blanks. *)
Lemma text_strip_stripped (n : node) :
  PyStr.strip (Dom.text_strip n) = Dom.text_strip n.
Proof.
  induction n as [d | t a cs H] using node_Forall_ind.
  - simpl. apply strip_idempotent.
  - simpl. induction H as [|c cs Hc _ IH]; [reflexivity|].
    apply strip_app_fixed; [exact Hc | exact IH].
Qed.

Lemma to_int_of_int (n : Z) : PyStr.to_int (PyStr.of_int n) = Some n.
Proof.
  unfold PyStr.to_int, PyStr.of_int.
  rewrite NilZero.isi.
  - simpl. rewrite DecimalZ.of_to. reflexivity.
  - destruct n; simpl; try discriminate.
    intros [= H]. exact (DecimalPos.Unsigned.to_uint_nonnil _ H).
  - destruct n; simpl; try discriminate.
    intros [= H]. exact (DecimalPos.Unsigned.to_uint_nonnil _ H).
Qed.

(** ** More about the record builder and the parser *)

Lemma article_data_raise_inv (e : Dom.handle) (x : exn) :
  article_data e = Raise x -> x = KeyError "href".
Proof.
  unfold article_data, subscript.
  destruct (Dom.css_first e sel_title) as [a|]; [|discriminate].
  destruct (Dom.dict_get "href" (Dom.attributes a)) as [[v|]|]; simpl;
    congruence.
Qed.

Lemma article_data_record_shape (e : Dom.handle) (d : article) :
  article_data e = Ok d -> record_shape d.
Proof.
  unfold article_data. intros H.
  apply rbind_Ok_inv in H. destruct H as [l [_ H]]. injection H as <-.
  unfold date_text.
  destruct (Dom.css_first e sel_title), (Dom.css_first e sel_date),
    (Dom.css_first e sel_description);
    do 4 eexists; (split; [reflexivity|]); repeat split;
    first [apply text_strip_stripped | apply strip_idempotent | reflexivity].
Qed.

Lemma article_data_by_anchor (e : Dom.handle) :
  if anchor_has_href e
  then exists d, article_data e = Ok d
  else article_data e = Raise (KeyError "href").
Proof.
  pose proof (article_data_cases e) as Hc. unfold anchor_has_href.
  destruct (Dom.css_first e sel_title) as [a|]; [|exact Hc].
  destruct (Dom.dict_get "href" (Dom.attributes a)); exact Hc.
Qed.

(** The loop over the containers either builds one record for each, after
    those it was given, or stops at the first anchor without [href]. *)
Lemma collect_outcome (l : list Dom.handle) :
  forall acc,
    if forallb anchor_has_href l
    then exists ds, collect l acc = Ok (acc ++ ds)%list
                    /\ length ds = length l
                    /\ Forall record_shape ds
    else collect l acc = Raise (KeyError "href").
Proof.
  induction l as [|e l IH]; intros acc; cbn [forallb collect].
  - exists []. rewrite app_nil_r. repeat split. constructor.
  - pose proof (article_data_by_anchor e) as Hc.
    destruct (anchor_has_href e); cbn [andb].
    + destruct Hc as [d Hd]. rewrite Hd. cbn [rbind].
      specialize (IH (acc ++ [d])%list).
      destruct (forallb anchor_has_href l); [|exact IH].
      destruct IH as [ds [H1 [H2 H3]]]. exists (d :: ds).
      rewrite H1, <- app_assoc. cbn [length app]. rewrite H2. repeat split.
      constructor; [exact (article_data_record_shape e d Hd) | exact H3].
    + rewrite Hc. reflexivity.
Qed.

Lemma record_shape_four_strings (d : article) :
  record_shape d ->
  forallb (fun kv => is_str (snd kv)) d = true ->
  four_strings d.
Proof.
  intros [t [l [dt [ds [-> _]]]]] H. simpl in H.
  destruct l as [l|]; [|discriminate]. exists t, l, dt, ds. reflexivity.
Qed.

Lemma valid_body_four_strings (body : list article) :
  Forall record_shape body -> valid_body body = true ->
  Forall four_strings body.
Proof.
  unfold valid_body. induction 1 as [|d body Hd _ IH]; intros H; simpl in H.
  - constructor.
  - apply andb_true_iff in H. destruct H as [H1 H2].
    constructor; [exact (record_shape_four_strings d Hd H1) | exact (IH H2)].
Qed.

Lemma respond_200_inv (r : result (list article)) (body : list article) :
  respond r = Http200 body -> r = Ok body /\ valid_body body = true.
Proof.
  destruct r as [b|e]; simpl; [|discriminate].
  destruct (valid_body b) eqn:E; [|discriminate].
  intros [= <-]. split; [reflexivity | exact E].
Qed.

(** X1. The date taken from a date element never contains the closing icon
    tag and has no surrounding blanks, whatever the element holds. *)
Theorem date_text_clean (date_element : node) :
  PyStr.occurs "</i>" (date_text date_element) = false
  /\ PyStr.strip (date_text date_element) = date_text date_element.
Proof.
  unfold date_text. split; [|apply strip_idempotent].
  apply occurs_strip. unfold PyStr.split.
  apply split_scan_last_clean; [discriminate | | congruence].
  intros _ a b H Hb. simpl in H. symmetry in H.
  apply append_eq_nil in H. contradiction.
Qed.

(** X2. When the text of the date element holds no closing icon tag, the
    split and the second strip change nothing: the date is the stripped text
    of the element. *)
Theorem date_text_without_tag (date_element : node) :
  PyStr.occurs "</i>" (Dom.text_strip date_element) = false ->
  date_text date_element = Dom.text_strip date_element.
Proof.
  intros H. unfold date_text, PyStr.split.
  rewrite (split_scan_no_sep _ _ [] H). simpl.
  apply text_strip_stripped.
Qed.

Lemma startswith_cons (x y : ascii) (p s : string) :
  PyStr.startswith (String x p) (String y s)
  = (Ascii.eqb x y && PyStr.startswith p s)%bool.
Proof. reflexivity. Qed.

(** The last piece of a split at the closing icon tag is what follows the
    last tag.  The tag cannot overlap itself, so the scan, wherever it
    stands before the last tag and whatever it has still to drop of an
    earlier one, cuts at the last tag. *)
Lemma split_scan_after_tag (post : string) :
  PyStr.occurs "</i>" post = false ->
  forall (pre : string) (skip : nat) (cur : list ascii),
    (skip <= String.length pre)%nat ->
    PyStr.last_item (PyStr.split_scan "</i>" (pre ++ "</i>" ++ post) skip cur)
    = post.
Proof.
  intros Hpost.
  induction pre as [|c pre IH]; intros skip cur Hskip.
  - assert (skip = O) by (simpl in Hskip; lia). subst skip.
    simpl. rewrite (split_scan_no_sep _ _ [] Hpost). reflexivity.
  - change (String c pre ++ "</i>" ++ post)
      with (String c (pre ++ "</i>" ++ post)).
    cbn [PyStr.split_scan]. destruct skip as [|k].
    + destruct (PyStr.startswith "</i>" (String c (pre ++ "</i>" ++ post)))
        eqn:E.
      * rewrite last_item_cons by apply split_scan_not_nil.
        apply IH.
        rewrite startswith_cons in E. apply andb_true_iff in E.
        destruct E as [_ E].
        destruct pre as [|a1 pre]; [simpl in E; discriminate E|].
        destruct pre as [|a2 pre].
        { change (String a1 "" ++ "</i>" ++ post)
            with (String a1 ("</i>" ++ post)) in E.
          rewrite startswith_cons in E. apply andb_true_iff in E.
          destruct E as [_ E]. simpl in E. discriminate E. }
        destruct pre as [|a3 pre].
        { change (String a1 (String a2 "") ++ "</i>" ++ post)
            with (String a1 (String a2 ("</i>" ++ post))) in E.
          rewrite !startswith_cons in E. apply andb_true_iff in E.
          destruct E as [_ E]. apply andb_true_iff in E.
          destruct E as [_ E]. simpl in E. discriminate E. }
        simpl. lia.
      * apply IH. lia.
    + apply IH. simpl in Hskip. lia.
Qed.

(** C7. A date element whose content is the icon element followed by the
    text 12 March 2024 has that text as its stripped text, the split at the
    closing icon tag leaves it in one piece, and the date extracted is
    exactly 12 March 2024.  The extraction is the split, the trailing
    segment and the trim, for every date element: when its stripped text
    holds a closing icon tag, the date is what follows the last one,
    trimmed; when it holds none, the date is the whole stripped text,
    trimmed. *)
Theorem date_text_icon_markup (tag : string)
        (attrs : list (string * option string)) :
  let date_element :=
    Element tag attrs
      [Element "i" [("class", Some "icon")] []; Text "12 March 2024"] in
  (Dom.text_strip date_element = "12 March 2024"
   /\ PyStr.split "</i>" (Dom.text_strip date_element) = ["12 March 2024"]
   /\ date_text date_element = "12 March 2024")
  /\ (forall (e : node) (pre post : string),
        Dom.text_strip e = pre ++ "</i>" ++ post ->
        PyStr.occurs "</i>" post = false ->
        date_text e = PyStr.strip post)
  /\ (forall e : node,
        PyStr.occurs "</i>" (Dom.text_strip e) = false ->
        date_text e = PyStr.strip (Dom.text_strip e)).
Proof.
  intros date_element. split; [repeat split|]. split.
  - intros e pre post H Hpost. unfold date_text, PyStr.split. rewrite H.
    rewrite (split_scan_after_tag post Hpost pre O []); [reflexivity|].
    apply Nat.le_0_l.
  - intros e H. unfold date_text, PyStr.split.
    rewrite (split_scan_no_sep _ _ [] H). reflexivity.
Qed.

(** X3. Different page numbers give different listing URLs. *)
Theorem scrape_url_distinct (p q : Z) :
  p <> q -> scrape_url p <> scrape_url q.
Proof.
  intros Hpq H. unfold scrape_url in H.
  apply append_inv_head in H. apply append_inv_head in H.
  apply (f_equal PyStr.to_int) in H. rewrite !to_int_of_int in H.
  congruence.
Qed.

(** ** More about the fetcher, the parser and the two routes *)

Section Coverage.

Variable HTMLParser : string -> Dom.handle.
Variable requests_get : string -> result response.

Local Abbreviation fetch_html := (fetch_html requests_get).
Local Abbreviation parse_articles := (parse_articles HTMLParser).
Local Abbreviation scrape_berita := (scrape_berita HTMLParser requests_get).
Local Abbreviation all_loop := (all_loop HTMLParser requests_get).
Local Abbreviation scrape_berita_all :=
  (scrape_berita_all HTMLParser requests_get).
Local Abbreviation get_scrape_berita :=
  (get_scrape_berita HTMLParser requests_get).
Local Abbreviation get_scrape_berita_all :=
  (get_scrape_berita_all HTMLParser requests_get).
Local Abbreviation fetched := (fetched requests_get).
Local Abbreviation page_yields := (page_yields HTMLParser requests_get).
Local Abbreviation page_ends := (page_ends HTMLParser requests_get).
Local Abbreviation page_articles := (page_articles HTMLParser requests_get).
Local Abbreviation page_raises := (page_raises HTMLParser requests_get).

(** What a fetch prints, by what it returns. *)
Lemma fetch_html_log (url : string) (w : world) :
  match fetched url with
  | Ok None =>
      exists e, is_RequestException e = true
                /\ printed (snd (fetch_html url w))
                   = (printed w ++ [ErrorFetchingURL url e])%list
  | _ => printed (snd (fetch_html url w)) = printed w
  end.
Proof.
  unfold fetched. rewrite !(fetch_html_eq requests_get).
  destruct (requests_get url) as [r|e].
  - destruct (response_ok r); simpl.
    + apply app_nil_r.
    + exists (HTTPError (status_code r)). split; reflexivity.
  - destruct (is_RequestException e) eqn:E; simpl.
    + exists e. split; [exact E | reflexivity].
    + apply app_nil_r.
Qed.

Lemma fetched_raise_inv (url : string) (e : exn) :
  fetched url = Raise e ->
  requests_get url = Raise e /\ is_RequestException e = false.
Proof.
  unfold fetched. rewrite (fetch_html_eq requests_get).
  destruct (requests_get url) as [r|x].
  - destruct (response_ok r); discriminate.
  - destruct (is_RequestException x) eqn:E; [discriminate|].
    simpl. intros [= <-]. split; [reflexivity | exact E].
Qed.

Lemma parse_articles_raise_inv (html : option string) (e : exn) :
  parse_articles html = Raise e -> e = KeyError "href".
Proof.
  unfold parse_articles. destruct html as [h|]; [|discriminate].
  destruct (PyStr.truthy h); [|discriminate].
  pose proof (collect_outcome (Dom.css (HTMLParser h) sel_article) []) as H.
  destruct (forallb anchor_has_href (Dom.css (HTMLParser h) sel_article)).
  - destruct H as [ds [-> _]]. discriminate.
  - rewrite H. congruence.
Qed.

Lemma parse_articles_shape (html : option string) (a : list article) :
  parse_articles html = Ok a -> Forall record_shape a.
Proof.
  unfold parse_articles. destruct html as [h|]; [|intros [= <-]; constructor].
  destruct (PyStr.truthy h); [|intros [= <-]; constructor].
  pose proof (collect_outcome (Dom.css (HTMLParser h) sel_article) []) as H.
  destruct (forallb anchor_has_href (Dom.css (HTMLParser h) sel_article)).
  - destruct H as [ds [-> [_ HF]]]. intros [= <-]. exact HF.
  - rewrite H. discriminate.
Qed.

Lemma page_articles_shape (i : Z) : Forall record_shape (page_articles i).
Proof.
  unfold page_articles.
  destruct (fetched (scrape_url i)) as [v|e]; [|constructor].
  destruct (parse_articles v) as [a|e] eqn:E; [|constructor].
  exact (parse_articles_shape v a E).
Qed.

Lemma page_raises_not_RequestException (i : Z) (e : exn) :
  page_raises i e -> is_RequestException e = false.
Proof.
  intros [H | [h [_ H]]].
  - exact (proj2 (fetched_raise_inv _ _ H)).
  - rewrite (parse_articles_raise_inv _ _ H). reflexivity.
Qed.

(** Every run of the loop that returns, read backwards: the pages it went
    through yielded articles, the page it stopped at ended the pagination or
    raised, one request went to each of them in order, and nothing was
    printed except, at most, one line for the last page. *)
Lemma all_loop_inv (fuel : nat) :
  forall (p : Z) (acc : list article) (w : world) r w',
    all_loop fuel p acc w = Some (r, w') ->
    exists n,
      (n < fuel)%nat
      /\ (forall i, In i (pages_from p n) -> page_yields i (page_articles i))
      /\ sent w' = (sent w ++ map scrape_url (pages_from p (S n)))%list
      /\ (page_ends (p + Z.of_nat n)
          /\ r = Ok (acc ++ flat_map page_articles (pages_from p n))%list
          \/ exists e, page_raises (p + Z.of_nat n) e /\ r = Raise e)
      /\ (printed w' = printed w
          \/ exists e,
               printed w'
               = (printed w
                  ++ [ErrorFetchingURL (scrape_url (p + Z.of_nat n)) e])%list).
Proof.
  induction fuel as [|fuel IH]; intros p acc w r w' H; [discriminate H|].
  rewrite (all_loop_S HTMLParser requests_get) in H.
  pose proof (fetch_html_sent requests_get (scrape_url p) w) as Hs.
  pose proof (fetch_html_log (scrape_url p) w) as Hl.
  rewrite (fetch_html_pair requests_get (scrape_url p) w) in H.
  destruct (fetched (scrape_url p)) as [v|e] eqn:Hf.
  - destruct (truthy v) eqn:Ht; cbn [negb] in H.
    + destruct v as [h|]; [|discriminate Ht].
      destruct (parse_articles (Some h)) as [[|a l]|e] eqn:Hp.
      * injection H as <- <-. exists O. rewrite Z.add_0_r.
        split; [lia|]. split; [intros i []|]. split; [exact Hs|].
        split; [|left; exact Hl].
        left. split; [right; exists h; split; assumption|].
        simpl. rewrite app_nil_r. reflexivity.
      * apply IH in H.
        destruct H as [n [Hn [Hy [Hsent [Hr Hpr]]]]].
        assert (Hpa : page_articles p = a :: l).
        { unfold page_articles. rewrite Hf, Hp. reflexivity. }
        exists (S n).
        replace (p + Z.of_nat (S n)) with (p + 1 + Z.of_nat n) by lia.
        split; [lia|]. split; [|split; [|split]].
        -- intros i [<- | Hi]; [|exact (Hy i Hi)].
           exists h. rewrite Hpa. repeat split; [exact Hf | exact Hp|].
           discriminate.
        -- rewrite Hsent, Hs, <- app_assoc. reflexivity.
        -- destruct Hr as [[He ->] | Hr]; [left | right; exact Hr].
           split; [exact He|]. cbn [pages_from flat_map].
           rewrite Hpa, app_assoc. reflexivity.
        -- rewrite Hl in Hpr. exact Hpr.
      * injection H as <- <-. exists O. rewrite Z.add_0_r.
        split; [lia|]. split; [intros i []|]. split; [exact Hs|].
        split; [|left; exact Hl].
        right. exists e. split; [right; exists h; split; assumption|].
        reflexivity.
    + injection H as <- <-. exists O. rewrite Z.add_0_r.
      split; [lia|]. split; [intros i []|]. split; [exact Hs|].
      destruct (truthy_false_inv v Ht) as [-> | ->].
      * split; [|right; destruct Hl as [e [_ Hl]]; exists e; exact Hl].
        left. split; [left; exact Hf|].
        simpl. rewrite app_nil_r. reflexivity.
      * split; [|left; exact Hl].
        left. split; [right; exists ""; split; [exact Hf | reflexivity]|].
        simpl. rewrite app_nil_r. reflexivity.
  - injection H as <- <-. exists O. rewrite Z.add_0_r.
    split; [lia|]. split; [intros i []|]. split; [exact Hs|].
    split; [|left; exact Hl].
    right. exists e. split; [left; exact Hf | reflexivity].
Qed.

(** X4. Every call of the fetcher sends exactly one request, to the URL it
    was given: it never retries.  It prints exactly one line, naming that URL
    and a [RequestException], when it returns [None], and nothing
    otherwise. *)
Theorem fetch_html_effects (url : string) (w : world) :
  sent (snd (fetch_html url w)) = (sent w ++ [url])%list
  /\ match fst (fetch_html url w) with
     | Ok None =>
         exists e, is_RequestException e = true
                   /\ printed (snd (fetch_html url w))
                      = (printed w ++ [ErrorFetchingURL url e])%list
     | _ => printed (snd (fetch_html url w)) = printed w
     end.
Proof.
  split; [apply fetch_html_sent|].
  rewrite (fetch_html_fetched requests_get). apply fetch_html_log.
Qed.

(** X5. The fetcher lets through only what its [except] clause does not
    name: an exception it raises is the one [requests.get] raised, and it is
    not a [RequestException]. *)
Theorem fetch_html_raise_inv (url : string) (w : world) (e : exn) :
  fst (fetch_html url w) = Raise e ->
  requests_get url = Raise e /\ is_RequestException e = false.
Proof.
  rewrite (fetch_html_fetched requests_get). apply fetched_raise_inv.
Qed.

(** X6. The fetcher returns a text exactly when the site answered with a
    status in 200..399, and the text is the body of that answer, unchanged
    (also when it is empty); with any other status, and with any exception
    of [requests.get], it returns no text. *)
Theorem fetch_html_content_iff (url : string) (w : world) (t : string) :
  fst (fetch_html url w) = Ok (Some t)
  <-> exists r, requests_get url = Ok r
                /\ 200 <= status_code r < 400
                /\ text r = t.
Proof.
  rewrite (fetch_html_eq requests_get).
  destruct (requests_get url) as [r|e].
  - unfold response_ok.
    destruct (Z.leb_spec 200 (status_code r));
      destruct (Z.ltb_spec (status_code r) 400); simpl.
    + split; [intros [= <-]; exists r; repeat split; lia|].
      intros [r' [[= <-] [_ <-]]]. reflexivity.
    + split; [discriminate|]. intros [r' [[= <-] [H' _]]]. lia.
    + split; [discriminate|]. intros [r' [[= <-] [H' _]]]. lia.
    + split; [discriminate|]. intros [r' [[= <-] [H' _]]]. lia.
  - split; [destruct (is_RequestException e); discriminate|].
    intros [r [H _]]. discriminate H.
Qed.

(** X7. On a non-empty HTML text the parser has two outcomes.  When every
    container's title anchor, if it has one, carries an href attribute, it
    returns one record per container, each with the keys title, link, date,
    description in this order and with title, date and description strings
    without surrounding blanks.  Otherwise it raises KeyError for href and
    returns no record at all. *)
Theorem parse_articles_outcome (h : string) :
  PyStr.truthy h = true ->
  if forallb anchor_has_href (Dom.css (HTMLParser h) sel_article)
  then exists a,
         parse_articles (Some h) = Ok a
         /\ length a = length (Dom.css (HTMLParser h) sel_article)
         /\ Forall record_shape a
  else parse_articles (Some h) = Raise (KeyError "href").
Proof.
  intros Ht. unfold parse_articles. rewrite Ht.
  pose proof (collect_outcome (Dom.css (HTMLParser h) sel_article) []) as H.
  destruct (forallb anchor_has_href (Dom.css (HTMLParser h) sel_article));
    [|exact H].
  destruct H as [ds [H1 [H2 H3]]]. exists ds. repeat split; assumption.
Qed.

(** X8. The single-page route sends at most one request.  It sends none,
    answers 422 and changes nothing else when the page parameter is below 1
    or has more than 4300 digits.  For every other page number it sends
    exactly one, for that page, whatever the fetch and the parse do; and
    exactly one for page 1 when the parameter is absent. *)
Theorem get_scrape_berita_requests (q : option Z) (w : world) :
  match q with
  | Some p =>
      if (1 <=? p)
         && (String.length (PyStr.of_int p) <=? PyStr.MAX_STR_DIGITS)%nat
      then sent (snd (get_scrape_berita q w))
           = (sent w ++ [scrape_url p])%list
      else get_scrape_berita q w = (Http422, w)
  | None =>
      sent (snd (get_scrape_berita q w)) = (sent w ++ [scrape_url 1])%list
  end.
Proof.
  unfold get_scrape_berita, validate_page.
  destruct q as [p|].
  - fold (page_in_range p). destruct (page_in_range p); [|reflexivity].
    rewrite (scrape_berita_eq HTMLParser requests_get). cbn [snd].
    apply fetch_html_sent.
  - rewrite (scrape_berita_eq HTMLParser requests_get). cbn [snd].
    apply fetch_html_sent.
Qed.

(** X9. Whenever one of the two routes answers 200, every record of the
    body has exactly the keys title, link, date, description, in this order,
    each with a string value. *)
Theorem routes_200_four_strings (body : list article) (w w' : world) :
  (forall q, get_scrape_berita q w = (Http200 body, w') ->
             Forall four_strings body)
  /\ (forall fuel, get_scrape_berita_all fuel w = Some (Http200 body, w') ->
                   Forall four_strings body).
Proof.
  split.
  - intros q. unfold get_scrape_berita.
    destruct (validate_page q) as [page|]; [|discriminate].
    rewrite (scrape_berita_eq HTMLParser requests_get).
    intros [= H _]. apply respond_200_inv in H. destruct H as [H Hv].
    apply valid_body_four_strings; [|exact Hv].
    destruct (fetched (scrape_url page)) as [v|e]; [|discriminate].
    exact (parse_articles_shape v body H).
  - intros fuel. unfold get_scrape_berita_all, scrape_berita_all.
    destruct (all_loop fuel 1 [] w) as [[r w1]|] eqn:E; [|discriminate].
    intros [= H _]. apply respond_200_inv in H. destruct H as [-> Hv].
    apply valid_body_four_strings; [|exact Hv].
    apply all_loop_inv in E.
    destruct E as [n [_ [_ [_ [[[_ Hr] | [e [_ Hr]]] _]]]]];
      [|discriminate].
    injection Hr as ->. cbn [app].
    apply Forall_flat_map. apply Forall_forall. intros i _.
    apply page_articles_shape.
Qed.

(** X10. Any run of the all-pages handler that returns, with a list or
    with an exception, has sent one request for each of the pages
    1, 2, ..., n+1 in this order, for some n below the fuel, and no other;
    and it has printed nothing, or one line, for page n+1. *)
Theorem scrape_berita_all_requests (fuel : nat) (w : world)
        (r : result (list article)) (w' : world) :
  scrape_berita_all fuel w = Some (r, w') ->
  exists n,
    (n < fuel)%nat
    /\ sent w' = (sent w ++ map scrape_url (pages_from 1 (S n)))%list
    /\ (printed w' = printed w
        \/ exists e,
             printed w'
             = (printed w
                ++ [ErrorFetchingURL (scrape_url (1 + Z.of_nat n)) e])%list).
Proof.
  intros H. apply all_loop_inv in H.
  destruct H as [n [Hn [_ [Hs [_ Hp]]]]]. exists n. repeat split; assumption.
Qed.

(** X11. When the all-pages handler returns a list, there is an n such
    that pages 1 to n each yielded a non-empty list of articles, page n+1
    ended the pagination (failed fetch, empty body or no article), and the
    list returned is the lists of pages 1 to n appended in this order. *)
Theorem scrape_berita_all_ok_inv (fuel : nat) (w : world)
        (r : list article) (w' : world) :
  scrape_berita_all fuel w = Some (Ok r, w') ->
  exists n : nat,
    (forall i, 1 <= i <= Z.of_nat n -> page_yields i (page_articles i))
    /\ page_ends (1 + Z.of_nat n)
    /\ r = flat_map page_articles (pages_from 1 n).
Proof.
  intros H. apply all_loop_inv in H.
  destruct H as [n [_ [Hy [_ [[[He Hr] | [e [_ Hr]]] _]]]]]; [|discriminate].
  exists n. split; [|split; [exact He | injection Hr as ->; reflexivity]].
  intros i Hi. apply Hy. apply pages_from_In. lia.
Qed.

(** X12. When the all-pages handler raises, there is an n such that pages 1
    to n each yielded articles and page n+1 raised: its fetch raised, or the
    parse of what was fetched did.  The exception is never a
    RequestException, and the articles of pages 1 to n are not returned. *)
Theorem scrape_berita_all_raise_inv (fuel : nat) (w : world) (e : exn)
        (w' : world) :
  scrape_berita_all fuel w = Some (Raise e, w') ->
  exists n : nat,
    (forall i, 1 <= i <= Z.of_nat n -> page_yields i (page_articles i))
    /\ page_raises (1 + Z.of_nat n) e
    /\ is_RequestException e = false.
Proof.
  intros H. apply all_loop_inv in H.
  destruct H as [n [_ [Hy [_ [[[_ Hr] | [x [Hx Hr]]] _]]]]]; [discriminate|].
  injection Hr as <-.
  exists n. split; [|split; [exact Hx|]].
  - intros i Hi. apply Hy. apply pages_from_In. lia.
  - exact (page_raises_not_RequestException _ _ Hx).
Qed.

(** X13. The loop has no bound of its own: on a site where every page from
    1 on yields articles, the all-pages handler does not return, whatever
    the fuel. *)
Theorem scrape_berita_all_never_returns (arts : Z -> list article)
        (fuel : nat) (w : world) :
  (forall i, 1 <= i -> page_yields i (arts i)) ->
  scrape_berita_all fuel w = None.
Proof.
  intros H. exact (all_loop_no_end HTMLParser requests_get arts fuel 1 [] w H).
Qed.

(** X14. What the all-pages handler returns begins with what the
    single-page handler returns for page 1. *)
Theorem scrape_berita_all_starts_with_page_1 (fuel : nat) (w : world)
        (r : list article) (w' : world) :
  scrape_berita_all fuel w = Some (Ok r, w') ->
  exists a rest,
    fst (scrape_berita 1 w) = Ok a /\ r = (a ++ rest)%list.
Proof.
  intros H. apply all_loop_inv in H.
  destruct H as [n [_ [Hy [_ [[[He Hr] | [e [_ Hr]]] _]]]]]; [|discriminate].
  injection Hr as ->. rewrite (scrape_berita_eq HTMLParser requests_get).
  cbn [fst app]. destruct n as [|n].
  - exists [], []. split; [|reflexivity].
    rewrite Z.add_0_r in He.
    destruct He as [Hf | [h [Hf Hp]]]; rewrite Hf; [reflexivity | exact Hp].
  - destruct (Hy 1) as [h [Hf [Hp _]]]; [left; reflexivity|].
    exists (page_articles 1), (flat_map page_articles (pages_from (1 + 1) n)).
    rewrite Hf. split; [exact Hp | reflexivity].
Qed.

End Coverage.

(** ** The added properties on the sample sites *)

Lemma date_text_without_tag_witness :
  date_text
    (Element "span" []
       [Element "i" [("class", Some "icon")] []; Text " 12 March 2024 "])
  = "12 March 2024".
Proof.
  apply (date_text_without_tag
           (Element "span" []
              [Element "i" [("class", Some "icon")] [];
               Text " 12 March 2024 "])).
  reflexivity.
Defined.

Lemma scrape_url_distinct_witness : scrape_url 1 <> scrape_url 2.
Proof. apply (scrape_url_distinct 1 2). lia. Defined.

Lemma fetch_html_raise_inv_witness :
  Sample.site_broken (scrape_url 1)
  = Raise (OtherError "unexpected keyword argument")
  /\ is_RequestException (OtherError "unexpected keyword argument") = false.
Proof.
  apply (fetch_html_raise_inv Sample.site_broken (scrape_url 1) Sample.w0).
  reflexivity.
Defined.

Lemma parse_articles_outcome_witness :
  exists a,
    parse_articles Sample.HTMLParser (Some (Sample.markup Sample.page2)) = Ok a
    /\ length a = 3%nat
    /\ Forall record_shape a.
Proof.
  exact (parse_articles_outcome Sample.HTMLParser
           (Sample.markup Sample.page2) eq_refl).
Defined.

Lemma routes_200_four_strings_witness :
  Forall four_strings Sample.articles1
  /\ Forall four_strings (Sample.articles1 ++ Sample.articles2)%list.
Proof.
  split.
  - apply (proj1 (routes_200_four_strings
                    Sample.HTMLParser Sample.site Sample.articles1 Sample.w0
                    {| sent := [scrape_url 1]; printed := [] |})
                 (Some 1)).
    vm_compute. reflexivity.
  - apply (proj2 (routes_200_four_strings
                    Sample.HTMLParser Sample.site
                    (Sample.articles1 ++ Sample.articles2)%list Sample.w0
                    {| sent := [scrape_url 1; scrape_url 2; scrape_url 3];
                       printed := [ErrorFetchingURL (scrape_url 3)
                                                    (HTTPError 404)] |})
                 3%nat).
    vm_compute. reflexivity.
Defined.

(** The run of the all-pages handler on the sample site. *)
Lemma sample_site_run :
  scrape_berita_all Sample.HTMLParser Sample.site 3 Sample.w0
  = Some (Ok (Sample.articles1 ++ Sample.articles2)%list,
          {| sent := [scrape_url 1; scrape_url 2; scrape_url 3];
             printed := [ErrorFetchingURL (scrape_url 3) (HTTPError 404)] |}).
Proof. vm_compute. reflexivity. Defined.

Lemma scrape_berita_all_requests_witness :
  exists n,
    (n < 3)%nat
    /\ [scrape_url 1; scrape_url 2; scrape_url 3]
       = map scrape_url (pages_from 1 (S n))
    /\ ([ErrorFetchingURL (scrape_url 3) (HTTPError 404)] = []
        \/ exists e,
             [ErrorFetchingURL (scrape_url 3) (HTTPError 404)]
             = [ErrorFetchingURL (scrape_url (1 + Z.of_nat n)) e]).
Proof.
  exact (scrape_berita_all_requests Sample.HTMLParser Sample.site 3 Sample.w0
           _ _ sample_site_run).
Defined.

Lemma scrape_berita_all_ok_inv_witness :
  exists n : nat,
    (forall i, 1 <= i <= Z.of_nat n ->
               page_yields Sample.HTMLParser Sample.site i
                 (page_articles Sample.HTMLParser Sample.site i))
    /\ page_ends Sample.HTMLParser Sample.site (1 + Z.of_nat n)
    /\ (Sample.articles1 ++ Sample.articles2)%list
       = flat_map (page_articles Sample.HTMLParser Sample.site)
                  (pages_from 1 n).
Proof.
  exact (scrape_berita_all_ok_inv Sample.HTMLParser Sample.site 3 Sample.w0
           _ _ sample_site_run).
Defined.

Lemma scrape_berita_all_raise_inv_witness :
  exists n : nat,
    (forall i, 1 <= i <= Z.of_nat n ->
               page_yields Sample.HTMLParser Sample.site_no_href_later i
                 (page_articles Sample.HTMLParser Sample.site_no_href_later i))
    /\ page_raises Sample.HTMLParser Sample.site_no_href_later
         (1 + Z.of_nat n) (KeyError "href")
    /\ is_RequestException (KeyError "href") = false.
Proof.
  apply (scrape_berita_all_raise_inv
           Sample.HTMLParser Sample.site_no_href_later 2 Sample.w0
           (KeyError "href")
           {| sent := [scrape_url 1; scrape_url 2]; printed := [] |}).
  vm_compute. reflexivity.
Defined.

(** Every page of the site that serves the same listing yields its five
    articles. *)
Lemma sample_site_same_pages (i : Z) :
  1 <= i -> page_yields Sample.HTMLParser Sample.site_same i Sample.articles1.
Proof.
  intros _. exists (Sample.markup Sample.page1).
  split; [reflexivity|].
  split; [vm_compute; reflexivity | discriminate].
Defined.

Lemma scrape_berita_all_never_returns_witness :
  scrape_berita_all Sample.HTMLParser Sample.site_same 1000 Sample.w0 = None.
Proof.
  exact (scrape_berita_all_never_returns
           Sample.HTMLParser Sample.site_same (fun _ => Sample.articles1)
           1000 Sample.w0 sample_site_same_pages).
Defined.

Lemma scrape_berita_all_starts_with_page_1_witness :
  exists a rest,
    fst (scrape_berita Sample.HTMLParser Sample.site 1 Sample.w0) = Ok a
    /\ (Sample.articles1 ++ Sample.articles2)%list = (a ++ rest)%list.
Proof.
  exact (scrape_berita_all_starts_with_page_1
           Sample.HTMLParser Sample.site 3 Sample.w0 _ _ sample_site_run).
Defined.

Lemma date_text_icon_markup_witness :
  date_text (Text " <i class='icon'></i> 12 March 2024 ") = "12 March 2024".
Proof.
  exact (proj1 (proj2 (date_text_icon_markup "span" []))
           (Text " <i class='icon'></i> 12 March 2024 ")
           "<i class='icon'>" " 12 March 2024" eq_refl eq_refl).
Defined.

(** A page number of 4301 digits is not in range: the single-page route
    answers 422 and fetches nothing, on any site. *)
Example get_scrape_berita_rejects_4301_digits
        (HTMLParser : string -> Dom.handle)
        (requests_get : string -> result response) (w : world) :
  let p := Z.of_int (Decimal.Pos (Nat.iter 4301 Decimal.D1 Decimal.Nil)) in
  String.length (PyStr.of_int p) = 4301%nat
  /\ get_scrape_berita HTMLParser requests_get (Some p) w = (Http422, w).
Proof.
  intros p.
  assert (H : String.length (PyStr.of_int p) = 4301%nat).
  { unfold PyStr.of_int, p. rewrite DecimalZ.to_of. vm_compute. reflexivity. }
  split; [exact H|].
  unfold get_scrape_berita, validate_page, page_in_range. rewrite H.
  replace (4301 <=? PyStr.MAX_STR_DIGITS)%nat with false
    by (vm_compute; reflexivity).
  rewrite andb_false_r. reflexivity.
Qed.

(** Class names match without regard to case only in a document without a
    doctype, and a vertical tab does not separate two class names. *)
Example class_matching_modes :
  let container := Element "div" [("class", Some "Post-Content wide")] [] in
  Dom.has_class true "post-content" container = true
  /\ Dom.has_class false "post-content" container = false
  /\ Dom.has_class false "wide" container = true
  /\ Dom.words (String "a" (String (ascii_of_nat 11) "b")) []
     = [String "a" (String (ascii_of_nat 11) "b")].
Proof. repeat split. Qed.

(** The no-break space and NEL are stripped like the ASCII blanks. *)
Example strip_latin1_blanks :
  PyStr.strip (String (ascii_of_nat 160)
                 (String "a" (String (ascii_of_nat 133) " ")))
  = "a".
Proof. reflexivity. Qed.
